(** * Technical indicators of [stock_data.py], shallowly embedded.

    Prices are rationals ([Q]): the arithmetic is exact, floating-point
    rounding is not modelled.  What the code relies on from IEEE doubles is
    modelled: the not-a-number sentinel of pandas ([NaN]) and the infinities
    that a division by zero produces ([PInf], [NInf]).  The rolling standard
    deviation takes a square root, so its column and the two Bollinger bands
    built from it are real numbers ([R]).

    A pandas DataFrame is an association list from column names to columns,
    and the caller's DataFrame lives in a store of objects, since
    [calculate_technical_indicators] writes its columns into the object it
    is given. *)

From Stdlib Require Import List Sorted String Ascii ZArith QArith Qreals Lqa Reals Lia Lra.
Import ListNotations.
Open Scope Q_scope.
Open Scope string_scope.

(** ** Numbers: rationals with NaN and the two infinities *)

Inductive fnum : Type :=
| Fin (q : Q)
| PInf
| NInf
| NaN.

Definition fneg (x : fnum) : fnum :=
  match x with
  | Fin a => Fin (- a)
  | PInf => NInf
  | NInf => PInf
  | NaN => NaN
  end.

Definition fadd (x y : fnum) : fnum :=
  match x, y with
  | NaN, _ | _, NaN => NaN
  | Fin a, Fin b => Fin (a + b)
  | PInf, NInf | NInf, PInf => NaN
  | PInf, _ | _, PInf => PInf
  | NInf, _ | _, NInf => NInf
  end.

Definition fsub (x y : fnum) : fnum := fadd x (fneg y).

(** sign of a rational: 1, 0 or -1 *)
Definition qsign (a : Q) : Z := Z.sgn (Qnum a).

Definition inf_of_sign (s : Z) : fnum :=
  if (0 <? s)%Z then PInf else if (s <? 0)%Z then NInf else NaN.

Definition fmul (x y : fnum) : fnum :=
  match x, y with
  | NaN, _ | _, NaN => NaN
  | Fin a, Fin b => Fin (a * b)
  | Fin a, PInf | PInf, Fin a => inf_of_sign (qsign a)
  | Fin a, NInf | NInf, Fin a => inf_of_sign (- qsign a)
  | PInf, PInf | NInf, NInf => PInf
  | PInf, NInf | NInf, PInf => NInf
  end.

(** Division; a zero divisor is the positive zero: [a / 0] is [+inf] for
    [a > 0], [-inf] for [a < 0] and NaN for [a = 0]. *)
Definition fdiv (x y : fnum) : fnum :=
  match x, y with
  | NaN, _ | _, NaN => NaN
  | Fin a, Fin b =>
      if Qeq_bool b 0 then inf_of_sign (qsign a) else Fin (a / b)
  | Fin _, (PInf | NInf) => Fin 0
  | (PInf | NInf), (PInf | NInf) => NaN
  | PInf, Fin b => if (qsign b <? 0)%Z then NInf else PInf
  | NInf, Fin b => if (qsign b <? 0)%Z then PInf else NInf
  end.

(** comparisons with NaN are false *)
Definition fgt0 (x : fnum) : bool :=
  match x with Fin a => negb (Qle_bool a 0) | PInf => true | _ => false end.

Definition flt0 (x : fnum) : bool :=
  match x with Fin a => negb (Qle_bool 0 a) | NInf => true | _ => false end.

Definition is_nan (x : fnum) : bool :=
  match x with NaN => true | _ => false end.

(** Real-valued cells, for the standard deviation and the bands *)
Inductive rnum : Type :=
| RFin (r : R)
| RPInf
| RNInf
| RNaN.

Definition to_rnum (x : fnum) : rnum :=
  match x with
  | Fin a => RFin (Q2R a)
  | PInf => RPInf
  | NInf => RNInf
  | NaN => RNaN
  end.

Definition radd (x y : rnum) : rnum :=
  match x, y with
  | RNaN, _ | _, RNaN => RNaN
  | RFin a, RFin b => RFin (a + b)%R
  | RPInf, RNInf | RNInf, RPInf => RNaN
  | RPInf, _ | _, RPInf => RPInf
  | RNInf, _ | _, RNInf => RNInf
  end.

Definition rneg (x : rnum) : rnum :=
  match x with
  | RFin a => RFin (- a)%R
  | RPInf => RNInf
  | RNInf => RPInf
  | RNaN => RNaN
  end.

Definition rsub (x y : rnum) : rnum := radd x (rneg y).

(** multiplication by the positive constant 2 *)
Definition rmul2 (x : rnum) : rnum :=
  match x with
  | RFin a => RFin (a * 2)%R
  | y => y
  end.

(** ** Series operations (pandas Series, aligned by position) *)

Definition series := list fnum.

Fixpoint zip_with {A B C} (f : A -> B -> C) (xs : list A) (ys : list B)
  : list C :=
  match xs, ys with
  | x :: xs', y :: ys' => f x y :: zip_with f xs' ys'
  | _, _ => []
  end.

(** [s.diff()]: NaN first, then the successive differences *)
Definition diff (s : series) : series :=
  match s with
  | [] => []
  | x :: r => NaN :: zip_with fsub r s
  end.

(** [s.where(cond, 0)]: keep the value where [cond] holds, else 0 *)
Definition where0 (cond : fnum -> bool) (s : series) : series :=
  map (fun x => if cond x then x else Fin 0) s.

(** the [w] values of the trailing window that ends at index [t] *)
Definition window {A} (w t : nat) (s : list A) : list A :=
  firstn w (skipn (t + 1 - w) s).

Definition fsum (s : series) : fnum := fold_left fadd s (Fin 0).

(** [s.rolling(window=w).mean()]: undefined until [w] values are there,
    and wherever the window holds a NaN *)
Definition rolling_mean_at (w : nat) (s : series) (t : nat) : fnum :=
  if (t + 1 <? w)%nat then NaN
  else let ws := window w t s in
       if existsb is_nan ws then NaN
       else fdiv (fsum ws) (Fin (inject_Z (Z.of_nat w))).

Definition rolling_mean (w : nat) (s : series) : series :=
  map (rolling_mean_at w s) (seq 0 (List.length s)).

(** finite values of a window, if all are finite *)
Fixpoint all_fin (s : series) : option (list Q) :=
  match s with
  | [] => Some []
  | Fin a :: r => match all_fin r with Some l => Some (a :: l) | None => None end
  | _ :: _ => None
  end.

Definition qsum (l : list Q) : Q := fold_right Qplus 0 l.

(** sample variance (ddof = 1) *)
Definition sample_var (l : list Q) : Q :=
  let n := inject_Z (Z.of_nat (List.length l)) in
  let m := qsum l / n in
  qsum (map (fun x => (x - m) * (x - m)) l) / (n - 1).

(** [s.rolling(window=w).std()]: the square root of the sample variance
    of each full window of finite values *)
Definition rolling_std_at (w : nat) (s : series) (t : nat) : rnum :=
  if (t + 1 <? w)%nat then RNaN
  else match all_fin (window w t s) with
       | Some l => RFin (sqrt (Q2R (sample_var l)))
       | None => RNaN
       end.

Definition rolling_std (w : nat) (s : series) : list rnum :=
  map (rolling_std_at w s) (seq 0 (List.length s)).

(** [s.ewm(span=span, adjust=False).mean()] over finite values:
    [y0 = x0], [yt = (1 - alpha) * y(t-1) + alpha * xt] *)
Definition alpha (span : Z) : Q := 2 / (inject_Z span + 1).

Fixpoint ewm_go (a : Q) (prev : fnum) (s : series) : series :=
  match s with
  | [] => []
  | x :: r =>
      let y := fadd (fmul (Fin (1 - a)) prev) (fmul (Fin a) x) in
      y :: ewm_go a y r
  end.

Definition ewm_mean (span : Z) (s : series) : series :=
  match s with
  | [] => []
  | x :: r => x :: ewm_go (alpha span) x r
  end.

(** ** Errors raised by the code *)

Inductive exn : Type :=
| KeyError        (* a missing column *)
| IndexError.     (* [data.index[0]] of an empty frame *)

Inductive result (A : Type) : Type :=
| Ok (a : A)
| Err (e : exn).
Arguments Ok {A} a.
Arguments Err {A} e.

Definition bind {A B} (c : result A) (k : A -> result B) : result B :=
  match c with Ok a => k a | Err e => Err e end.

Notation "'let*' x ':=' c 'in' k" := (bind c (fun x => k))
  (at level 200, x name, c at level 100, k at level 200).

(** ** DataFrames *)

Inductive column : Type :=
| QCol (s : series)         (* float column *)
| RCol (s : list rnum).     (* float column holding square roots *)

Definition frame := list (string * column).

Fixpoint lookup (k : string) (f : frame) : option column :=
  match f with
  | [] => None
  | (k', c) :: r => if String.eqb k' k then Some c else lookup k r
  end.

(** [data[k] = c]: overwrite an existing column in place, otherwise add
    it as the last column *)
Definition set_col (k : string) (c : column) (f : frame) : frame :=
  if existsb (fun p => String.eqb (fst p) k) f
  then map (fun p => if String.eqb (fst p) k then (k, c) else p) f
  else (f ++ [(k, c)])%list.

(** [data[k]] as a float series *)
Definition get_q (k : string) (f : frame) : result series :=
  match lookup k f with
  | Some (QCol s) => Ok s
  | Some (RCol _) | None => Err KeyError
  end.

(** [data[k]] as a real series *)
Definition get_r (k : string) (f : frame) : result (list rnum) :=
  match lookup k f with
  | Some (QCol s) => Ok (map to_rnum s)
  | Some (RCol s) => Ok s
  | None => Err KeyError
  end.

(** ** The indicator columns *)

(** [100 - (100 / (1 + rs))] *)
Definition rsi_cell (rs : fnum) : fnum :=
  fsub (Fin 100) (fdiv (Fin 100) (fadd (Fin 1) rs)).

Definition rsi_of (close : series) : series :=
  let delta := diff close in
  let gain := rolling_mean 14 (where0 fgt0 delta) in
  let loss := rolling_mean 14 (map fneg (where0 flt0 delta)) in
  let rs := zip_with fdiv gain loss in
  map rsi_cell rs.

(** The body of [calculate_technical_indicators(data)]: the sequence of
    column assignments on the DataFrame's value. *)
Definition calc_columns (data : frame) : result frame :=
  let* close := get_q "Close" data in
  let data := set_col "RSI" (QCol (rsi_of close)) data in
  let exp1 := ewm_mean 12 close in
  let exp2 := ewm_mean 26 close in
  let data := set_col "MACD" (QCol (zip_with fsub exp1 exp2)) data in
  let* macd := get_q "MACD" data in
  let data := set_col "Signal_Line" (QCol (ewm_mean 9 macd)) data in
  let* macd := get_q "MACD" data in
  let* signal := get_q "Signal_Line" data in
  let data := set_col "MACD_Histogram" (QCol (zip_with fsub macd signal)) data in
  let* close := get_q "Close" data in
  let data := set_col "20MA" (QCol (rolling_mean 20 close)) data in
  let data := set_col "20STD" (RCol (rolling_std 20 close)) data in
  let* ma := get_r "20MA" data in
  let* sd := get_r "20STD" data in
  let data := set_col "Upper_Band" (RCol (zip_with radd ma (map rmul2 sd))) data in
  let* ma := get_r "20MA" data in
  let* sd := get_r "20STD" data in
  let data := set_col "Lower_Band" (RCol (zip_with rsub ma (map rmul2 sd))) data in
  Ok data.

(** ** Objects: the caller's DataFrame is shared with the callee *)

Definition ref := nat.
Definition heap := list frame.

Definition heap_store (h : heap) (r : ref) (f : frame) : heap :=
  (firstn r h ++ f :: skipn (S r) h)%list.

(** [calculate_technical_indicators(data)]: reads the object [data],
    assigns the columns into that same object and returns it. *)
Definition calculate_technical_indicators (h : heap) (data : ref)
  : result (heap * ref) :=
  match nth_error h data with
  | None => Err KeyError
  | Some f =>
      let* f' := calc_columns f in
      Ok (heap_store h data f', data)
  end.

(** ** Rows from the data source and [fetch_stock_data] *)

Record row : Type := {
  date : Z;       (* days since 1970-01-01, a Thursday *)
  Open : Q;
  High : Q;
  Low : Q;
  Close : Q;
  Volume : Q
}.

Definition ohlcv_frame (rows : list row) : frame :=
  [("Open", QCol (map (fun r => Fin (Open r)) rows));
   ("High", QCol (map (fun r => Fin (High r)) rows));
   ("Low", QCol (map (fun r => Fin (Low r)) rows));
   ("Close", QCol (map (fun r => Fin (Close r)) rows));
   ("Volume", QCol (map (fun r => Fin (Volume r)) rows))].

(** Monday is 0, ..., Sunday is 6 *)
Definition weekday (d : Z) : Z := (d + 3) mod 7.

(** membership in [pd.date_range(first, last, freq='B')] *)
Definition in_bdate_range (first last d : Z) : bool :=
  (weekday d <? 5)%Z && (first <=? d)%Z && (d <=? last)%Z.

(** [data.index[0]] and [data.index[-1]] *)
Definition index_first (rows : list row) : result Z :=
  match rows with [] => Err IndexError | r :: _ => Ok (date r) end.

Definition index_last (rows : list row) : result Z :=
  match rows with [] => Err IndexError | r :: _ => Ok (date (last rows r)) end.

(** [data[data.index.isin(pd.date_range(data.index[0], data.index[-1], freq='B'))]] *)
Definition bday_filter (rows : list row) : result (list row) :=
  let* first := index_first rows in
  let* last := index_last rows in
  Ok (filter (fun r => in_bdate_range first last (date r)) rows).

(** [fetch_stock_data] from the rows [stock.history] returned *)
Definition fetch_stock_data (history : list row) : result frame :=
  let* rows := bday_filter history in
  calc_columns (ohlcv_frame rows).

(** ** The moving-average traces of [plot_stock_data] *)

Fixpoint uint_to_string (u : Decimal.uint) : string :=
  match u with
  | Decimal.Nil => ""
  | Decimal.D0 u => String "0"%char (uint_to_string u)
  | Decimal.D1 u => String "1"%char (uint_to_string u)
  | Decimal.D2 u => String "2"%char (uint_to_string u)
  | Decimal.D3 u => String "3"%char (uint_to_string u)
  | Decimal.D4 u => String "4"%char (uint_to_string u)
  | Decimal.D5 u => String "5"%char (uint_to_string u)
  | Decimal.D6 u => String "6"%char (uint_to_string u)
  | Decimal.D7 u => String "7"%char (uint_to_string u)
  | Decimal.D8 u => String "8"%char (uint_to_string u)
  | Decimal.D9 u => String "9"%char (uint_to_string u)
  end.

(** [f'{window} Day MA'] *)
Definition ma_name (window : nat) : string :=
  uint_to_string (Nat.to_uint window) ++ " Day MA".

Definition col_len (c : column) : nat :=
  match c with QCol s => List.length s | RCol s => List.length s end.

(** [len(data)]: the number of rows, which every column has *)
Definition frame_len (data : frame) : nat :=
  match data with [] => 0%nat | (_, c) :: _ => col_len c end.

(** [for window, color in [(50, ...), (252, ...)]: if len(data) >= window:
      ma = data['Close'].rolling(window=window).mean(); fig.add_trace(...)] *)
Fixpoint ma_traces_go (data : frame) (windows : list nat)
  : result (list (string * series)) :=
  match windows with
  | [] => Ok []
  | window :: ws =>
      if (window <=? frame_len data)%nat then
        let* close := get_q "Close" data in
        let* rest := ma_traces_go data ws in
        Ok ((ma_name window, rolling_mean window close) :: rest)
      else ma_traces_go data ws
  end.

Definition ma_traces (data : frame) : result (list (string * series)) :=
  ma_traces_go data [50%nat; 252%nat].

(** the names of all traces [plot_stock_data] adds, in order *)
Definition plot_trace_names (data : frame) : result (list string) :=
  let* mas := ma_traces data in
  Ok (["OHLC"; "Upper BB"; "Lower BB"; "RSI"; "MACD"; "Signal Line";
       "MACD Histogram"; "Volume"] ++ map fst mas)%list.

(** ** Tests on small inputs *)

Definition mkrow (d : Z) (c : Q) : row :=
  {| date := d; Open := c; High := c; Low := c; Close := c; Volume := 1 |}.

Definition rows_of (d0 : Z) (cs : list Q) : list row :=
  map (fun p => mkrow (d0 + Z.of_nat (fst p))%Z (snd p))
      (combine (seq 0 (List.length cs)) cs).

Definition indicator (rows : list row) (k : string) : option column :=
  match calc_columns (ohlcv_frame rows) with
  | Ok f => lookup k f
  | Err _ => None
  end.

Definition flat15 : list Q := repeat 50 15.

(** ** The columns [calc_columns] assigns, computed from [Close] alone *)

Definition calc_result (close : series) (data : frame) : frame :=
  let macd := zip_with fsub (ewm_mean 12 close) (ewm_mean 26 close) in
  let signal := ewm_mean 9 macd in
  let ma := rolling_mean 20 close in
  let sd := rolling_std 20 close in
  set_col "Lower_Band" (RCol (zip_with rsub (map to_rnum ma) (map rmul2 sd)))
  (set_col "Upper_Band" (RCol (zip_with radd (map to_rnum ma) (map rmul2 sd)))
  (set_col "20STD" (RCol sd)
  (set_col "20MA" (QCol ma)
  (set_col "MACD_Histogram" (QCol (zip_with fsub macd signal))
  (set_col "Signal_Line" (QCol signal)
  (set_col "MACD" (QCol macd)
  (set_col "RSI" (QCol (rsi_of close)) data))))))).

(** the names of the columns [calculate_technical_indicators] assigns *)
Definition added_names : list string :=
  ["RSI"; "MACD"; "Signal_Line"; "MACD_Histogram"; "20MA"; "20STD";
   "Upper_Band"; "Lower_Band"].

(** the RSI value at index [t] of the frame built from [rows] *)
Definition rsi_at (rows : list row) (t : nat) : option fnum :=
  match indicator rows "RSI" with
  | Some (QCol s) => nth_error s t
  | _ => None
  end.

(** closes [a], [a + 1], ..., [a + n - 1] *)
Definition rising (a : Z) (n : nat) : list Q :=
  map (fun k => inject_Z (a + Z.of_nat k)) (seq 0 n).

(** the first [n] business days from day [d0] on *)
Definition business_days (d0 : Z) (n : nat) : list Z :=
  firstn n (filter (fun d => (weekday d <? 5)%Z)
                   (map (fun k => d0 + Z.of_nat k)%Z (seq 0 (2 * n + 7)))).

Definition rows_on (ds : list Z) (cs : list Q) : list row :=
  map (fun p => mkrow (fst p) (snd p)) (combine ds cs).

(** 25 business days from Monday 1970-01-05, closes 100, 101, ..., 124 *)
Definition example25 : list row := rows_on (business_days 4 25) (rising 100 25).

(** every value finite and each one above the previous *)
Fixpoint fin_increasing (s : series) : bool :=
  match s with
  | [] | [Fin _] => true
  | Fin a :: ((Fin b :: _) as r) => negb (Qle_bool b a) && fin_increasing r
  | _ => false
  end.

(** rows in date order *)
Fixpoint sorted_dates (rows : list row) : bool :=
  match rows with
  | r1 :: ((r2 :: _) as rs) => (date r1 <=? date r2)%Z && sorted_dates rs
  | _ => true
  end.

(** column [k] is present and every column named [k] holds [c] *)
Definition has_col (k : string) (c : column) (f : frame) : Prop :=
  existsb (fun p => String.eqb (fst p) k) f = true /\
  Forall (fun p => fst p = k -> snd p = c) f.

(** the series [gain] and [loss] average in [rsi_of] *)
Definition gains (close : series) : series := where0 fgt0 (diff close).

Definition losses (close : series) : series :=
  map fneg (where0 flt0 (diff close)).

Definition nonneg_fin (x : fnum) : Prop := exists a, x = Fin a /\ 0 <= a.

Definition nan_or_fin (x : fnum) : Prop := x = NaN \/ exists a, x = Fin a.

Definition is_fin (x : fnum) : Prop := exists a, x = Fin a.

(** [ewm_go] on finite values, computed in [Q] *)
Fixpoint ema_go (a p : Q) (xs : list Q) : list Q :=
  match xs with
  | [] => []
  | x :: r => let y := (1 - a) * p + a * x in y :: ema_go a y r
  end.

(** ** One round of the [__main__] loop after the ticker is read *)

Inductive outcome : Type :=
| NoData                                  (* "No data found for ticker symbol" *)
| FetchError (e : exn)                    (* "Error fetching data for ..." *)
| Plotted (data : frame) (traces : list string).

(** [try: data = fetch_stock_data(ticker); if data.empty: ...;
    plot_stock_data(data, ticker) except Exception as e: ...] *)
Definition main_fetch (history : list row) : outcome :=
  match fetch_stock_data history with
  | Err e => FetchError e
  | Ok data =>
      if (frame_len data =? 0)%nat then NoData
      else match plot_trace_names data with
           | Ok names => Plotted data names
           | Err e => FetchError e
           end
  end.

(** ** Lemmas on frames *)

Lemma lookup_app_r (k : string) (f g : frame) :
  lookup k f = None -> lookup k (f ++ g)%list = lookup k g.
Proof.
  induction f as [|[k' c'] f IH]; simpl; auto.
  destruct (String.eqb k' k); [discriminate | exact IH].
Qed.

Lemma lookup_none_of_existsb (k : string) (f : frame) :
  existsb (fun p => String.eqb (fst p) k) f = false -> lookup k f = None.
Proof.
  induction f as [|[k' c'] f IH]; simpl; auto.
  destruct (String.eqb k' k); [discriminate | exact IH].
Qed.

Lemma lookup_set_col_same (k : string) (c : column) (f : frame) :
  lookup k (set_col k c f) = Some c.
Proof.
  unfold set_col.
  destruct (existsb (fun p => String.eqb (fst p) k) f) eqn:E.
  - induction f as [|[k' c'] f IH]; simpl in *; [discriminate|].
    destruct (String.eqb k' k) eqn:Ek; simpl.
    + rewrite String.eqb_refl. reflexivity.
    + rewrite Ek. apply IH. exact E.
  - rewrite lookup_app_r by (apply lookup_none_of_existsb; exact E).
    simpl. rewrite String.eqb_refl. reflexivity.
Qed.

Lemma lookup_set_col_other (k k' : string) (c : column) (f : frame) :
  String.eqb k k' = false -> lookup k' (set_col k c f) = lookup k' f.
Proof.
  intro Hk. unfold set_col.
  destruct (existsb (fun p => String.eqb (fst p) k) f).
  - induction f as [|[k0 c0] f IH]; simpl; auto.
    destruct (String.eqb k0 k) eqn:E0; simpl.
    + apply String.eqb_eq in E0. subst k0. rewrite Hk. exact IH.
    + destruct (String.eqb k0 k'); [reflexivity | exact IH].
  - induction f as [|[k0 c0] f IH]; simpl.
    + rewrite Hk. reflexivity.
    + destruct (String.eqb k0 k'); [reflexivity | exact IH].
Qed.

(** rewrite the lookups of a sequence of column assignments *)
Ltac simpl_lookup :=
  repeat first
    [ rewrite lookup_set_col_same
    | rewrite lookup_set_col_other by reflexivity ].

Lemma calc_columns_eq (data : frame) (close : series) :
  lookup "Close" data = Some (QCol close) ->
  calc_columns data = Ok (calc_result close data).
Proof.
  intro Hc. unfold calc_columns, get_q, get_r.
  rewrite Hc. cbn [bind].
  repeat progress (simpl_lookup; rewrite ?Hc; cbn [bind]).
  reflexivity.
Qed.

(** ** Lemmas on series *)

Lemma zip_with_length {A B C} (f : A -> B -> C) xs ys :
  List.length (zip_with f xs ys) = Nat.min (List.length xs) (List.length ys).
Proof.
  revert ys; induction xs as [|x xs IH]; intros [|y ys]; simpl; auto.
Qed.

Lemma nth_error_zip_with {A B C} (f : A -> B -> C) xs ys t :
  nth_error (zip_with f xs ys) t =
  match nth_error xs t, nth_error ys t with
  | Some x, Some y => Some (f x y)
  | _, _ => None
  end.
Proof.
  revert ys t; induction xs as [|x xs IH]; intros [|y ys] [|t]; simpl; auto.
  destruct (nth_error xs t); reflexivity.
Qed.

Lemma diff_length (s : series) : List.length (diff s) = List.length s.
Proof.
  destruct s as [|x r]; simpl; auto.
  rewrite zip_with_length. simpl. lia.
Qed.

Lemma rolling_mean_length w s : List.length (rolling_mean w s) = List.length s.
Proof. unfold rolling_mean. rewrite length_map, length_seq. reflexivity. Qed.

Lemma rolling_std_length w s : List.length (rolling_std w s) = List.length s.
Proof. unfold rolling_std. rewrite length_map, length_seq. reflexivity. Qed.

Lemma nth_error_rolling_mean w s t :
  (t < List.length s)%nat ->
  nth_error (rolling_mean w s) t = Some (rolling_mean_at w s t).
Proof.
  intro H. unfold rolling_mean. rewrite nth_error_map, nth_error_seq.
  destruct (Nat.ltb_spec t (List.length s)); [reflexivity | lia].
Qed.

Lemma nth_error_rolling_std w s t :
  (t < List.length s)%nat ->
  nth_error (rolling_std w s) t = Some (rolling_std_at w s t).
Proof.
  intro H. unfold rolling_std. rewrite nth_error_map, nth_error_seq.
  destruct (Nat.ltb_spec t (List.length s)); [reflexivity | lia].
Qed.

Lemma Forall_window {A} (P : A -> Prop) w t (s : list A) :
  Forall P s -> Forall P (window w t s).
Proof.
  intro H. unfold window.
  assert (Hs : Forall P (skipn (t + 1 - w) s)).
  { rewrite <- (firstn_skipn (t + 1 - w) s) in H.
    apply Forall_app in H. apply H. }
  rewrite <- (firstn_skipn w (skipn (t + 1 - w) s)) in Hs.
  apply Forall_app in Hs. apply Hs.
Qed.

(** ** RSI: gains and losses of a finite close series *)


Lemma zip_fsub_fin (xs ys : list Q) :
  Forall (fun x => exists a, x = Fin a) (zip_with fsub (map Fin xs) (map Fin ys)).
Proof.
  revert ys; induction xs as [|x xs IH]; intros [|y ys]; simpl; constructor.
  - eexists; reflexivity.
  - apply IH.
Qed.

Lemma diff_nan_or_fin (cs : list Q) : Forall nan_or_fin (diff (map Fin cs)).
Proof.
  destruct cs as [|c r]; simpl; constructor.
  - left; reflexivity.
  - change (Fin c :: map Fin r) with (map Fin (c :: r)).
    eapply Forall_impl; [|apply zip_fsub_fin].
    intros x Hx; right; exact Hx.
Qed.

Lemma gains_nonneg (cs : list Q) : Forall nonneg_fin (gains (map Fin cs)).
Proof.
  unfold gains, where0. apply Forall_map.
  eapply Forall_impl; [|apply diff_nan_or_fin].
  intros x [-> | [a ->]]; simpl.
  - exists 0; split; [reflexivity | apply Qle_refl].
  - destruct (Qle_bool a 0) eqn:E; simpl.
    + exists 0; split; [reflexivity | apply Qle_refl].
    + exists a; split; [reflexivity|].
      apply Qlt_le_weak, Qnot_le_lt. intro H.
      apply Qle_bool_iff in H. congruence.
Qed.

Lemma losses_nonneg (cs : list Q) : Forall nonneg_fin (losses (map Fin cs)).
Proof.
  unfold losses, where0. rewrite map_map. apply Forall_map.
  eapply Forall_impl; [|apply diff_nan_or_fin].
  intros x [-> | [a ->]]; simpl.
  - exists (- 0); split; [reflexivity | discriminate].
  - destruct (Qle_bool 0 a) eqn:E; simpl.
    + exists (- 0); split; [reflexivity | discriminate].
    + exists (- a); split; [reflexivity|].
      assert (Ha : a < 0).
      { apply Qnot_le_lt. intro H. apply Qle_bool_iff in H. congruence. }
      apply Qlt_le_weak, Qopp_le_compat in Ha. exact Ha.
Qed.

Lemma fold_fadd_nonneg (l : series) (acc : Q) :
  Forall nonneg_fin l -> 0 <= acc ->
  exists s, fold_left fadd l (Fin acc) = Fin s /\ 0 <= s.
Proof.
  revert acc; induction l as [|x l IH]; intros acc Hl Hacc; simpl.
  - exists acc; split; [reflexivity | exact Hacc].
  - inversion Hl as [|? ? [a [-> Ha]] Hl']; subst. simpl.
    apply IH; [exact Hl'|].
    apply (Qplus_le_compat 0 acc 0 a) in Hacc; [exact Hacc | exact Ha].
Qed.

Lemma forall_nonneg_no_nan (l : series) :
  Forall nonneg_fin l -> existsb is_nan l = false.
Proof.
  induction 1 as [|x l [a [-> _]] _ IH]; simpl; auto.
Qed.

Lemma rolling_mean14_nonneg (s : series) (t : nat) :
  Forall nonneg_fin s -> (13 <= t)%nat ->
  exists g, rolling_mean_at 14 s t = Fin g /\ 0 <= g.
Proof.
  intros Hs Ht. unfold rolling_mean_at.
  destruct (Nat.ltb_spec (t + 1) 14); [lia|].
  rewrite forall_nonneg_no_nan by (apply Forall_window, Hs).
  destruct (fold_fadd_nonneg (window 14 t s) 0) as [sum [Hsum Hpos]];
    [apply Forall_window, Hs | apply Qle_refl|].
  unfold fsum. rewrite Hsum. simpl.
  exists (sum / 14); split; [reflexivity|].
  apply Qmult_le_0_compat; [exact Hpos | discriminate].
Qed.

Lemma rolling_mean_early (w : nat) (s : series) (t : nat) :
  (t + 1 < w)%nat -> rolling_mean_at w s t = NaN.
Proof.
  intro H. unfold rolling_mean_at.
  destruct (Nat.ltb_spec (t + 1) w); [reflexivity | lia].
Qed.

Lemma nth_error_rsi_of (close : series) (t : nat) :
  (t < List.length close)%nat ->
  nth_error (rsi_of close) t =
  Some (rsi_cell (fdiv (rolling_mean_at 14 (gains close) t)
                       (rolling_mean_at 14 (losses close) t))).
Proof.
  intro Ht. unfold rsi_of. rewrite nth_error_map, nth_error_zip_with.
  rewrite !nth_error_rolling_mean.
  - reflexivity.
  - unfold where0. rewrite length_map, length_map, diff_length. exact Ht.
  - unfold where0. rewrite length_map, diff_length. exact Ht.
Qed.

Lemma rsi_of_length (close : series) :
  List.length (rsi_of close) = List.length close.
Proof.
  unfold rsi_of, where0.
  rewrite length_map, zip_with_length, !rolling_mean_length,
    !length_map, diff_length. lia.
Qed.

Lemma qnum_zero (g : Q) : g == 0 <-> Qnum g = 0%Z.
Proof. unfold Qeq; simpl; lia. Qed.

(** the zero-loss case of one RSI cell, and its finite case *)
Lemma rsi_cell_cases (g l : Q) :
  0 <= g -> 0 <= l ->
  (rsi_cell (fdiv (Fin g) (Fin l)) = NaN <-> g == 0 /\ l == 0) /\
  (rsi_cell (fdiv (Fin g) (Fin l)) <> NaN ->
     exists q, rsi_cell (fdiv (Fin g) (Fin l)) = Fin q) /\
  (l == 0 -> ~ g == 0 -> rsi_cell (fdiv (Fin g) (Fin l)) = Fin 100).
Proof.
  intros Hg Hl.
  assert (Hg' : (0 <= Qnum g)%Z) by (unfold Qle in Hg; simpl in Hg; lia).
  remember (fdiv (Fin g) (Fin l)) as rs eqn:Hrs. unfold fdiv in Hrs.
  destruct (Qeq_bool l 0) eqn:El; subst rs.
  - apply Qeq_bool_iff in El.
    unfold qsign, inf_of_sign.
    destruct (Z.eq_dec (Qnum g) 0) as [Hz | Hz].
    + rewrite Hz. simpl. split; [|split].
      * split; [intros _; split; [apply qnum_zero; exact Hz | exact El] | reflexivity].
      * intro H; exfalso; apply H; reflexivity.
      * intros _ Hng; exfalso; apply Hng, qnum_zero, Hz.
    + assert (Hs : Z.sgn (Qnum g) = 1%Z) by (apply Z.sgn_pos; lia).
      rewrite Hs. simpl. split; [|split].
      * split; [discriminate | intros [H _]; apply qnum_zero in H; lia].
      * intros _; eexists; reflexivity.
      * intros _ _; reflexivity.
  - assert (Hl0 : ~ l == 0) by (intro H; apply Qeq_bool_iff in H; congruence).
    assert (Hpos : 0 < 1 + g / l).
    { apply (Qlt_le_trans _ (1 + 0)); [reflexivity|].
      apply Qplus_le_compat; [apply Qle_refl|].
      apply Qmult_le_0_compat; [exact Hg | apply Qinv_le_0_compat, Hl]. }
    assert (Hne : Qeq_bool (1 + g / l) 0 = false).
    { destruct (Qeq_bool (1 + g / l) 0) eqn:E; [|reflexivity].
      apply Qeq_bool_iff in E. apply Qlt_not_eq in Hpos.
      exfalso; apply Hpos, Qeq_sym, E. }
    unfold rsi_cell. cbn [fadd fdiv fneg]. rewrite Hne. cbn [fadd fneg].
    split; [|split].
    + split; [discriminate | intros [_ H]; contradiction].
    + intros _; eexists; reflexivity.
    + intro H; contradiction.
Qed.

Lemma rsi_early (close : series) (t : nat) :
  (t < 13)%nat -> (t < List.length close)%nat ->
  nth_error (rsi_of close) t = Some NaN.
Proof.
  intros H13 Ht. rewrite nth_error_rsi_of by exact Ht.
  rewrite !rolling_mean_early by lia. reflexivity.
Qed.

Lemma rsi_index (close : list Q) (t : nat) :
  (13 <= t)%nat -> (t < List.length close)%nat ->
  exists g l,
    rolling_mean_at 14 (gains (map Fin close)) t = Fin g /\
    rolling_mean_at 14 (losses (map Fin close)) t = Fin l /\
    0 <= g /\ 0 <= l /\
    nth_error (rsi_of (map Fin close)) t = Some (rsi_cell (fdiv (Fin g) (Fin l))).
Proof.
  intros H13 Ht.
  destruct (rolling_mean14_nonneg (gains (map Fin close)) t) as [g [Hg Hg0]];
    [apply gains_nonneg | exact H13|].
  destruct (rolling_mean14_nonneg (losses (map Fin close)) t) as [l [Hl Hl0]];
    [apply losses_nonneg | exact H13|].
  exists g, l. repeat split; auto.
  rewrite nth_error_rsi_of by (rewrite length_map; exact Ht).
  rewrite Hg, Hl. reflexivity.
Qed.

(** an RSI cell equal to 100 comes from a zero average loss and a
    positive average gain *)
Lemma rsi_cell_100 (g l q : Q) :
  0 <= g -> 0 <= l -> rsi_cell (fdiv (Fin g) (Fin l)) = Fin q -> q == 100 ->
  l == 0 /\ 0 < g.
Proof.
  intros Hg Hl Hq H100.
  destruct (Qeq_bool l 0) eqn:El.
  - apply Qeq_bool_iff in El. split; [exact El|].
    destruct (Qeq_dec g 0) as [Hz | Hz].
    + exfalso. assert (Hn : rsi_cell (fdiv (Fin g) (Fin l)) = NaN)
        by (apply (rsi_cell_cases g l Hg Hl); split; assumption).
      congruence.
    + apply Qle_lteq in Hg as [Hg | Hg]; [exact Hg|].
      exfalso; apply Hz, Qeq_sym, Hg.
  - exfalso.
    assert (Hx : 0 <= g / l)
      by (apply Qmult_le_0_compat; [exact Hg | apply Qinv_le_0_compat, Hl]).
    assert (Hne : Qeq_bool (1 + g / l) 0 = false).
    { destruct (Qeq_bool (1 + g / l) 0) eqn:E; [|reflexivity].
      apply Qeq_bool_iff in E. Lqa.lra. }
    unfold rsi_cell, fdiv in Hq. rewrite El in Hq. cbn [fadd fneg] in Hq.
    rewrite Hne in Hq. cbn [fadd fneg] in Hq. injection Hq as <-.
    assert (H0 : 0 < 100 / (1 + g / l)) by (apply Qlt_shift_div_l; Lqa.lra).
    Lqa.lra.
Qed.

(** ** Constant closes *)

Lemma fold_fadd_zero (l : series) (acc : Q) :
  Forall (fun x => x = Fin 0) l -> acc == 0 ->
  exists s, fold_left fadd l (Fin acc) = Fin s /\ s == 0.
Proof.
  revert acc; induction l as [|x l IH]; intros acc Hl Hacc; simpl.
  - exists acc; split; [reflexivity | exact Hacc].
  - inversion Hl as [|? ? -> Hl']; subst. simpl.
    apply IH; [exact Hl'|].
    apply qnum_zero in Hacc. apply qnum_zero. simpl. rewrite Hacc. ring.
Qed.

Lemma rolling_mean14_zero (s : series) (t : nat) :
  Forall (fun x => x = Fin 0) s -> (13 <= t)%nat ->
  exists g, rolling_mean_at 14 s t = Fin g /\ g == 0.
Proof.
  intros Hs Ht. unfold rolling_mean_at.
  destruct (Nat.ltb_spec (t + 1) 14); [lia|].
  assert (Hw : Forall (fun x => x = Fin 0) (window 14 t s))
    by (apply Forall_window, Hs).
  assert (Hn : existsb is_nan (window 14 t s) = false).
  { induction Hw as [|x l -> _ IH]; simpl; auto. }
  rewrite Hn.
  destruct (fold_fadd_zero (window 14 t s) 0 Hw) as [sum [Hsum Hz]];
    [reflexivity|].
  unfold fsum. rewrite Hsum. simpl.
  exists (sum / 14); split; [reflexivity|].
  apply qnum_zero in Hz. apply qnum_zero. simpl. rewrite Hz. reflexivity.
Qed.

Lemma diff_repeat (c : Q) (n : nat) :
  Forall (fun x => x = NaN \/ x = Fin (c + - c)) (diff (map Fin (repeat c n))).
Proof.
  destruct n as [|n]; simpl; constructor; [left; reflexivity|].
  change (Fin c :: map Fin (repeat c n)) with (map Fin (repeat c (S n))).
  assert (H : forall m k, Forall (fun x => x = NaN \/ x = Fin (c + - c))
                (zip_with fsub (map Fin (repeat c m)) (map Fin (repeat c k)))).
  { induction m as [|m IH]; intros [|k]; simpl; constructor; auto. }
  apply H.
Qed.

Lemma gains_repeat (c : Q) (n : nat) :
  Forall (fun x => x = Fin 0) (gains (map Fin (repeat c n))).
Proof.
  unfold gains, where0. apply Forall_map.
  eapply Forall_impl; [|apply diff_repeat].
  intros x [-> | ->]; [reflexivity|]. simpl.
  assert (E : Qle_bool (c + - c) 0 = true).
  { apply Qle_bool_iff. rewrite Qplus_opp_r. apply Qle_refl. }
  rewrite E. reflexivity.
Qed.

Lemma losses_repeat (c : Q) (n : nat) :
  Forall (fun x => x = Fin 0) (losses (map Fin (repeat c n))).
Proof.
  unfold losses, where0. rewrite map_map. apply Forall_map.
  eapply Forall_impl; [|apply diff_repeat].
  intros x [-> | ->]; [reflexivity|]. simpl.
  assert (E : Qle_bool 0 (c + - c) = true).
  { apply Qle_bool_iff. rewrite Qplus_opp_r. apply Qle_refl. }
  rewrite E. reflexivity.
Qed.

(** ** The columns of the frame built from rows *)

Lemma ohlcv_close (rows : list row) :
  lookup "Close" (ohlcv_frame rows) = Some (QCol (map Fin (map Close rows))).
Proof. simpl. rewrite map_map. reflexivity. Qed.

Lemma indicator_calc (rows : list row) (k : string) :
  indicator rows k =
  lookup k (calc_result (map Fin (map Close rows)) (ohlcv_frame rows)).
Proof.
  unfold indicator. rewrite (calc_columns_eq _ _ (ohlcv_close rows)).
  reflexivity.
Qed.

Lemma indicator_RSI (rows : list row) :
  indicator rows "RSI" = Some (QCol (rsi_of (map Fin (map Close rows)))).
Proof. rewrite indicator_calc. unfold calc_result. simpl_lookup. reflexivity. Qed.

Lemma closes_const (rows : list row) (c : Q) :
  Forall (fun r => Close r = c) rows ->
  map Close rows = repeat c (List.length rows).
Proof. induction 1 as [|r rows Hr _ IH]; simpl; congruence. Qed.

(** * The claims *)

(** C1 (counterexample): for fifteen equal closes the RSI at index 14 is
    NaN (zero gain over zero loss), not 100. *)
Lemma rsi_flat15_nan : rsi_at (rows_of 4 flat15) 14 = Some NaN.
Proof. unfold rsi_at. rewrite indicator_RSI. vm_compute. reflexivity. Qed.

(** C1 (amended): for a constant close series the RSI is NaN at every
    index, since a zero average loss is not special-cased; the RSI is 100
    exactly where, from index 13 on, the 14-period average loss is zero and
    the average gain is positive (an infinite RS): such an index has RSI
    100, and an index with RSI 100 is such an index. *)
Theorem rsi_zero_loss (rows : list row) :
  (forall c, Forall (fun r => Close r = c) rows ->
     forall t, (t < List.length rows)%nat -> rsi_at rows t = Some NaN) /\
  (forall t g l, (13 <= t)%nat -> (t < List.length rows)%nat ->
     rolling_mean_at 14 (gains (map Fin (map Close rows))) t = Fin g ->
     rolling_mean_at 14 (losses (map Fin (map Close rows))) t = Fin l ->
     l == 0 -> ~ g == 0 -> rsi_at rows t = Some (Fin 100)) /\
  (forall t q, (t < List.length rows)%nat ->
     rsi_at rows t = Some (Fin q) -> q == 100 ->
     (13 <= t)%nat /\
     exists g l,
       rolling_mean_at 14 (gains (map Fin (map Close rows))) t = Fin g /\
       rolling_mean_at 14 (losses (map Fin (map Close rows))) t = Fin l /\
       l == 0 /\ 0 < g).
Proof.
  unfold rsi_at. rewrite indicator_RSI. split; [|split].
  - intros c Hc t Ht.
    destruct (Nat.lt_ge_cases t 13) as [H13 | H13].
    + apply rsi_early; [exact H13 | rewrite !length_map; exact Ht].
    + destruct (rsi_index (map Close rows) t H13) as [g [l [Hg [Hl [Hg0 [Hl0 ->]]]]]];
        [rewrite length_map; exact Ht|].
      rewrite (closes_const rows c Hc) in Hg, Hl.
      destruct (rolling_mean14_zero _ t (gains_repeat c (List.length rows)) H13)
        as [g' [Hg' Hz]].
      destruct (rolling_mean14_zero _ t (losses_repeat c (List.length rows)) H13)
        as [l' [Hl' Hz']].
      rewrite Hg in Hg'. rewrite Hl in Hl'.
      injection Hg' as ->. injection Hl' as ->.
      f_equal. apply (rsi_cell_cases g' l' Hg0 Hl0). split; assumption.
  - intros t g l H13 Ht Hg Hl Hlz Hgz.
    destruct (rsi_index (map Close rows) t H13) as [g' [l' [Hg' [Hl' [Hg0 [Hl0 ->]]]]]];
      [rewrite length_map; exact Ht|].
    rewrite Hg in Hg'. rewrite Hl in Hl'.
    injection Hg' as <-. injection Hl' as <-.
    f_equal. apply (rsi_cell_cases g l Hg0 Hl0); assumption.
  - intros t q Ht Hq H100.
    destruct (Nat.lt_ge_cases t 13) as [H13 | H13].
    + rewrite rsi_early in Hq by (first [exact H13 | rewrite !length_map; exact Ht]).
      discriminate.
    + split; [exact H13|].
      destruct (rsi_index (map Close rows) t H13) as [g [l [Hg [Hl [Hg0 [Hl0 Hr]]]]]];
        [rewrite length_map; exact Ht|].
      rewrite Hr in Hq. injection Hq as Hq.
      exists g, l. split; [exact Hg|]. split; [exact Hl|].
      apply (rsi_cell_100 g l q); assumption.
Qed.

(** C1 (witness): the fifteen equal closes, where the theorem gives NaN at
    index 14; and the rising closes 1, ..., 16 at index 13, where the
    average loss is zero and the average gain positive, and RSI is 100. *)
Lemma rsi_zero_loss_witness :
  rsi_at (rows_of 4 flat15) 14 = Some NaN /\
  rsi_at (rows_of 4 (rising 1 16)) 13 = Some (Fin 100) /\
  exists g l,
    rolling_mean_at 14 (gains (map Fin (map Close (rows_of 4 (rising 1 16))))) 13 = Fin g /\
    rolling_mean_at 14 (losses (map Fin (map Close (rows_of 4 (rising 1 16))))) 13 = Fin l /\
    l == 0 /\ 0 < g.
Proof.
  split; [|split].
  - apply (proj1 (rsi_zero_loss (rows_of 4 flat15)) 50).
    + repeat constructor.
    + vm_compute. lia.
  - set (R := rows_of 4 (rising 1 16)).
    apply (proj1 (proj2 (rsi_zero_loss R)) 13%nat
             (match rolling_mean_at 14 (gains (map Fin (map Close R))) 13 with
              | Fin g => g | _ => 0 end)
             (match rolling_mean_at 14 (losses (map Fin (map Close R))) 13 with
              | Fin l => l | _ => 0 end)).
    + lia.
    + vm_compute. lia.
    + vm_compute. reflexivity.
    + vm_compute. reflexivity.
    + vm_compute. reflexivity.
    + vm_compute. discriminate.
  - apply (proj2 (proj2 (rsi_zero_loss (rows_of 4 (rising 1 16)))) 13%nat 100).
    + vm_compute. lia.
    + vm_compute. reflexivity.
    + reflexivity.
Defined.

(** C3 (counterexample): for the rising closes 1, ..., 16 the RSI is
    already defined at index 13 (equal to 100). *)
Lemma rsi_rising_defined_at_13 : rsi_at (rows_of 4 (rising 1 16)) 13 = Some (Fin 100).
Proof. unfold rsi_at. rewrite indicator_RSI. vm_compute. reflexivity. Qed.

(** C3 (amended): the RSI column has one value per row; it is NaN at the
    indices 0..12, and at each index from 13 on it is NaN exactly when the
    14-period average gain and average loss (the first, missing delta
    counting as 0) are both zero, and a finite value otherwise. *)
Theorem rsi_warmup (rows : list row) :
  exists rsi,
    indicator rows "RSI" = Some (QCol rsi) /\
    List.length rsi = List.length rows /\
    (forall t, (t < 13)%nat -> (t < List.length rows)%nat ->
       nth_error rsi t = Some NaN) /\
    (forall t, (13 <= t)%nat -> (t < List.length rows)%nat ->
       exists g l x,
         rolling_mean_at 14 (gains (map Fin (map Close rows))) t = Fin g /\
         rolling_mean_at 14 (losses (map Fin (map Close rows))) t = Fin l /\
         nth_error rsi t = Some x /\
         (x = NaN <-> g == 0 /\ l == 0) /\
         (x <> NaN -> exists q, x = Fin q)).
Proof.
  eexists; split; [apply indicator_RSI|].
  split; [rewrite rsi_of_length, !length_map; reflexivity|].
  split.
  - intros t H13 Ht. apply rsi_early; [exact H13 | rewrite !length_map; exact Ht].
  - intros t H13 Ht.
    destruct (rsi_index (map Close rows) t H13) as [g [l [Hg [Hl [Hg0 [Hl0 Hx]]]]]];
      [rewrite length_map; exact Ht|].
    exists g, l, (rsi_cell (fdiv (Fin g) (Fin l))).
    destruct (rsi_cell_cases g l Hg0 Hl0) as [H1 [H2 _]].
    repeat split; auto; apply H1; assumption.
Qed.

(** C3 (witness): index 13 of the rising closes 1, ..., 16. *)
Lemma rsi_warmup_witness :
  exists g l x,
    rolling_mean_at 14 (gains (map Fin (rising 1 16))) 13 = Fin g /\
    rolling_mean_at 14 (losses (map Fin (rising 1 16))) 13 = Fin l /\
    nth_error (rsi_of (map Fin (rising 1 16))) 13 = Some x /\
    (x = NaN <-> g == 0 /\ l == 0) /\ (x <> NaN -> exists q, x = Fin q).
Proof.
  destruct (rsi_warmup (rows_of 4 (rising 1 16))) as [rsi [Hi [_ [_ H]]]].
  rewrite indicator_RSI in Hi. injection Hi as <-.
  assert (E : map Close (rows_of 4 (rising 1 16)) = rising 1 16)
    by (vm_compute; reflexivity).
  rewrite E in H. apply H; vm_compute; lia.
Defined.

(** ** EWM over finite values *)


Lemma ewm_go_fin (a p : Q) (xs : list Q) :
  ewm_go a (Fin p) (map Fin xs) = map Fin (ema_go a p xs).
Proof.
  revert p; induction xs as [|x xs IH]; intro p; simpl; [reflexivity|].
  rewrite IH. reflexivity.
Qed.

Lemma ewm_mean_fin (span : Z) (c : Q) (cs : list Q) :
  ewm_mean span (map Fin (c :: cs)) = map Fin (c :: ema_go (alpha span) c cs).
Proof. simpl. rewrite ewm_go_fin. reflexivity. Qed.

Lemma ema_go_length (a p : Q) (xs : list Q) :
  List.length (ema_go a p xs) = List.length xs.
Proof. revert p; induction xs; intro p; simpl; auto. Qed.

Lemma ema_go_step (a p : Q) (xs : list Q) (t : nat) :
  (t < List.length xs)%nat ->
  nth (S t) (p :: ema_go a p xs) 0 ==
  a * nth t xs 0 + (1 - a) * nth t (p :: ema_go a p xs) 0.
Proof.
  revert p t; induction xs as [|x xs IH]; intros p t Ht; simpl in *; [lia|].
  destruct t as [|t].
  - ring.
  - apply (IH ((1 - a) * p + a * x) t). lia.
Qed.


Lemma forall_fin_map (l : series) :
  Forall is_fin l -> exists qs, l = map Fin qs.
Proof.
  induction 1 as [|x l [a ->] _ [qs ->]]; [exists []; reflexivity|].
  exists (a :: qs); reflexivity.
Qed.

Lemma forall_fin_of_map (qs : list Q) : Forall is_fin (map Fin qs).
Proof. apply Forall_map, Forall_forall. intros q _. exists q; reflexivity. Qed.

Lemma ewm_mean_length (span : Z) (s : series) :
  List.length (ewm_mean span s) = List.length s.
Proof.
  destruct s as [|x r]; simpl; [reflexivity|]. f_equal.
  generalize x; induction r as [|y r IH]; intro p; simpl; auto.
Qed.

Lemma ewm_mean_all_fin (span : Z) (qs : list Q) :
  Forall is_fin (ewm_mean span (map Fin qs)).
Proof.
  destruct qs as [|c cs]; [constructor|].
  rewrite ewm_mean_fin. apply forall_fin_of_map.
Qed.

Lemma zip_fsub_all_fin (xs ys : series) :
  Forall is_fin xs -> Forall is_fin ys -> Forall is_fin (zip_with fsub xs ys).
Proof.
  intros Hx Hy. apply forall_fin_map in Hx as [qx ->].
  apply forall_fin_map in Hy as [qy ->]. apply zip_fsub_fin.
Qed.

Lemma indicator_MACD (rows : list row) :
  indicator rows "MACD" =
  Some (QCol (zip_with fsub (ewm_mean 12 (map Fin (map Close rows)))
                            (ewm_mean 26 (map Fin (map Close rows))))).
Proof. rewrite indicator_calc. unfold calc_result. simpl_lookup. reflexivity. Qed.

Lemma indicator_Signal (rows : list row) :
  indicator rows "Signal_Line" =
  Some (QCol (ewm_mean 9 (zip_with fsub (ewm_mean 12 (map Fin (map Close rows)))
                                       (ewm_mean 26 (map Fin (map Close rows)))))).
Proof. rewrite indicator_calc. unfold calc_result. simpl_lookup. reflexivity. Qed.

Lemma indicator_Hist (rows : list row) :
  let macd := zip_with fsub (ewm_mean 12 (map Fin (map Close rows)))
                            (ewm_mean 26 (map Fin (map Close rows))) in
  indicator rows "MACD_Histogram" =
  Some (QCol (zip_with fsub macd (ewm_mean 9 macd))).
Proof. rewrite indicator_calc. unfold calc_result. simpl_lookup. reflexivity. Qed.

(** C4: for a non-empty series, MACD, Signal_Line and MACD_Histogram have
    a finite value at every index from 0 on, MACD is the difference of the
    12- and 26-span EMAs of the closes, each EMA is seeded with the first
    close and follows [ema[t] = alpha * close[t] + (1 - alpha) * ema[t-1]]
    with [alpha = 2 / (span + 1)], and MACD[0] is 0. *)
Theorem macd_defined_from_0 (rows : list row) :
  rows <> [] ->
  let close := map Close rows in
  exists macd signal hist,
    indicator rows "MACD" = Some (QCol macd) /\
    indicator rows "Signal_Line" = Some (QCol signal) /\
    indicator rows "MACD_Histogram" = Some (QCol hist) /\
    List.length macd = List.length rows /\
    List.length signal = List.length rows /\
    List.length hist = List.length rows /\
    Forall is_fin macd /\ Forall is_fin signal /\ Forall is_fin hist /\
    (exists m0, nth_error macd 0 = Some (Fin m0) /\ m0 == 0) /\
    macd = zip_with fsub (ewm_mean 12 (map Fin close)) (ewm_mean 26 (map Fin close)) /\
    (forall span,
       exists ema, ewm_mean span (map Fin close) = map Fin ema /\
         nth 0 ema 0 = nth 0 close 0 /\
         forall t, (S t < List.length rows)%nat ->
           nth (S t) ema 0 ==
           alpha span * nth (S t) close 0 + (1 - alpha span) * nth t ema 0).
Proof.
  intros Hne close.
  destruct rows as [|r0 rs]; [contradiction|].
  set (macd := zip_with fsub (ewm_mean 12 (map Fin close)) (ewm_mean 26 (map Fin close))).
  assert (Hm : Forall is_fin macd) by (apply zip_fsub_all_fin; apply ewm_mean_all_fin).
  assert (Hlm : List.length macd = List.length (r0 :: rs)).
  { unfold macd, close. rewrite zip_with_length, !ewm_mean_length, !length_map. lia. }
  exists macd, (ewm_mean 9 macd), (zip_with fsub macd (ewm_mean 9 macd)).
  split; [apply indicator_MACD|].
  split; [apply indicator_Signal|].
  split; [apply indicator_Hist|].
  split; [exact Hlm|].
  split; [rewrite ewm_mean_length; exact Hlm|].
  split; [rewrite zip_with_length, ewm_mean_length, Hlm; lia|].
  assert (Hs : Forall is_fin (ewm_mean 9 macd)).
  { apply forall_fin_map in Hm as [ms Hms]. rewrite Hms. apply ewm_mean_all_fin. }
  split; [exact Hm|]. split; [exact Hs|].
  split; [apply zip_fsub_all_fin; assumption|].
  split.
  - unfold macd, close. cbn.
    eexists; split; [reflexivity|]. apply Qplus_opp_r.
  - split; [reflexivity|].
    intro span. unfold close.
    change (map Close (r0 :: rs)) with (Close r0 :: map Close rs).
    exists (Close r0 :: ema_go (alpha span) (Close r0) (map Close rs)).
    split; [apply ewm_mean_fin|].
    split; [reflexivity|].
    intros t Ht. simpl nth at 2.
    apply ema_go_step. simpl in Ht. rewrite length_map. lia.
Qed.

(** C4 (witness): the rising closes 1, ..., 5. *)
Lemma macd_defined_from_0_witness :
  exists macd signal hist,
    indicator (rows_of 4 (rising 1 5)) "MACD" = Some (QCol macd) /\
    indicator (rows_of 4 (rising 1 5)) "Signal_Line" = Some (QCol signal) /\
    indicator (rows_of 4 (rising 1 5)) "MACD_Histogram" = Some (QCol hist) /\
    Forall is_fin macd /\ Forall is_fin signal /\ Forall is_fin hist /\
    (exists m0, nth_error macd 0 = Some (Fin m0) /\ m0 == 0).
Proof.
  destruct (macd_defined_from_0 (rows_of 4 (rising 1 5))) as
    (m & s & h & H1 & H2 & H3 & _ & _ & _ & H7 & H8 & H9 & H10 & _);
    [discriminate|].
  exists m, s, h. repeat split; assumption.
Defined.

(** ** Bollinger bands *)

Lemma indicator_bands (rows : list row) :
  let close := map Fin (map Close rows) in
  let ma := rolling_mean 20 close in
  let sd := rolling_std 20 close in
  indicator rows "20MA" = Some (QCol ma) /\
  indicator rows "20STD" = Some (RCol sd) /\
  indicator rows "Upper_Band" =
    Some (RCol (zip_with radd (map to_rnum ma) (map rmul2 sd))) /\
  indicator rows "Lower_Band" =
    Some (RCol (zip_with rsub (map to_rnum ma) (map rmul2 sd))).
Proof.
  intros close ma sd. rewrite !indicator_calc. unfold calc_result.
  repeat split; simpl_lookup; reflexivity.
Qed.

Lemma rolling_mean_short (w : nat) (s : series) :
  (List.length s < w)%nat -> Forall (eq NaN) (rolling_mean w s).
Proof.
  intro H. unfold rolling_mean. apply Forall_map, Forall_forall.
  intros t Ht. apply in_seq in Ht.
  rewrite rolling_mean_early by lia. reflexivity.
Qed.

Lemma rolling_std_short (w : nat) (s : series) :
  (List.length s < w)%nat -> Forall (eq RNaN) (rolling_std w s).
Proof.
  intro H. unfold rolling_std. apply Forall_map, Forall_forall.
  intros t Ht. apply in_seq in Ht. unfold rolling_std_at.
  destruct (Nat.ltb_spec (t + 1) w); [reflexivity | lia].
Qed.

Lemma zip_nan_l (f : rnum -> rnum -> rnum) (xs ys : list rnum) :
  (forall y, f RNaN y = RNaN) ->
  Forall (eq RNaN) xs -> Forall (eq RNaN) (zip_with f xs ys).
Proof.
  intros Hf Hx. revert ys.
  induction Hx as [|x xs <- _ IH]; intros [|y ys]; simpl; constructor; auto.
Qed.

Lemma to_rnum_nan (xs : series) :
  Forall (eq NaN) xs -> Forall (eq RNaN) (map to_rnum xs).
Proof. induction 1 as [|x xs <- _ IH]; simpl; constructor; auto. Qed.

(** C6: for a series of fewer than 20 rows, the 20-period SMA (the middle
    band), the 20-period standard deviation and the upper and lower bands
    are NaN at every index. *)
Theorem bands_undefined_short (rows : list row) :
  (List.length rows < 20)%nat ->
  exists ma sd up lo,
    indicator rows "20MA" = Some (QCol ma) /\
    indicator rows "20STD" = Some (RCol sd) /\
    indicator rows "Upper_Band" = Some (RCol up) /\
    indicator rows "Lower_Band" = Some (RCol lo) /\
    List.length ma = List.length rows /\ List.length up = List.length rows /\
    List.length lo = List.length rows /\
    Forall (eq NaN) ma /\ Forall (eq RNaN) sd /\
    Forall (eq RNaN) up /\ Forall (eq RNaN) lo.
Proof.
  intro Hn.
  destruct (indicator_bands rows) as (H1 & H2 & H3 & H4).
  set (close := map Fin (map Close rows)) in *.
  assert (Hc : List.length close = List.length rows)
    by (unfold close; rewrite !length_map; reflexivity).
  assert (Hma : Forall (eq NaN) (rolling_mean 20 close))
    by (apply rolling_mean_short; lia).
  eexists _, _, _, _.
  split; [exact H1|]. split; [exact H2|]. split; [exact H3|]. split; [exact H4|].
  split; [rewrite rolling_mean_length; exact Hc|].
  split; [rewrite zip_with_length, !length_map, rolling_mean_length,
            rolling_std_length; lia|].
  split; [rewrite zip_with_length, !length_map, rolling_mean_length,
            rolling_std_length; lia|].
  split; [exact Hma|].
  split; [apply rolling_std_short; lia|].
  split; apply zip_nan_l; try (apply to_rnum_nan, Hma); reflexivity.
Qed.

(** C6 (witness): the rising closes 1, ..., 19. *)
Lemma bands_undefined_short_witness :
  exists ma sd up lo,
    indicator (rows_of 4 (rising 1 19)) "20MA" = Some (QCol ma) /\
    indicator (rows_of 4 (rising 1 19)) "20STD" = Some (RCol sd) /\
    indicator (rows_of 4 (rising 1 19)) "Upper_Band" = Some (RCol up) /\
    indicator (rows_of 4 (rising 1 19)) "Lower_Band" = Some (RCol lo) /\
    Forall (eq NaN) ma /\ Forall (eq RNaN) sd /\
    Forall (eq RNaN) up /\ Forall (eq RNaN) lo.
Proof.
  destruct (bands_undefined_short (rows_of 4 (rising 1 19))) as
    (ma & sd & up & lo & H1 & H2 & H3 & H4 & _ & _ & _ & H8 & H9 & H10 & H11);
    [vm_compute; lia|].
  exists ma, sd, up, lo. repeat split; assumption.
Defined.

(** ** The rising example *)

Lemma fin_increasing_spec (s : series) :
  fin_increasing s = true ->
  forall t, (S t < List.length s)%nat ->
  exists a b, nth_error s t = Some (Fin a) /\
              nth_error s (S t) = Some (Fin b) /\ a < b.
Proof.
  induction s as [|x s IH]; intros H t Ht; simpl in Ht; [lia|].
  destruct x as [a| | |]; try (destruct s; simpl in Ht; [lia | discriminate]).
  destruct s as [|y s]; simpl in Ht; [lia|].
  destruct y as [b| | |]; try discriminate.
  simpl in H. apply andb_true_iff in H as [Hab Hs].
  destruct t as [|t].
  - exists a, b. repeat split.
    apply Qnot_le_lt. intro Hle. apply Qle_bool_iff in Hle.
    rewrite Hle in Hab. discriminate.
  - apply (IH Hs t). simpl. lia.
Qed.

Lemma example25_closes : map Close example25 = rising 100 25.
Proof. vm_compute. reflexivity. Qed.

(** C7: for 25 consecutive business-day closes 100, 101, ..., 124, the
    20-period SMA at the last index is 114.5, the 20-period sample standard
    deviation [sd] there is positive, the upper band there is
    [114.5 + 2 * sd], the RSI is 100 at every index from 14 on, and MACD
    is finite and strictly increasing across the series. *)
Theorem example25_indicators :
  exists ma sd up rsi macd m s,
    indicator example25 "20MA" = Some (QCol ma) /\
    nth_error ma 24 = Some (Fin m) /\ m == 229 # 2 /\
    indicator example25 "20STD" = Some (RCol sd) /\
    nth_error sd 24 = Some (RFin s) /\ (0 < s)%R /\
    indicator example25 "Upper_Band" = Some (RCol up) /\
    nth_error up 24 = Some (RFin (Q2R (229 # 2) + 2 * s)%R) /\
    indicator example25 "RSI" = Some (QCol rsi) /\
    (forall t, (14 <= t < 25)%nat -> nth_error rsi t = Some (Fin 100)) /\
    indicator example25 "MACD" = Some (QCol macd) /\
    List.length macd = 25%nat /\
    (forall t, (S t < 25)%nat -> exists a b,
       nth_error macd t = Some (Fin a) /\ nth_error macd (S t) = Some (Fin b) /\
       a < b).
Proof.
  destruct (indicator_bands example25) as (H1 & H2 & H3 & _).
  rewrite example25_closes in H1, H2, H3.
  set (close := map Fin (rising 100 25)) in *.
  assert (Hlen : List.length close = 25%nat) by reflexivity.
  assert (Hma : rolling_mean_at 20 close 24 = Fin (2290 # 20))
    by (vm_compute; reflexivity).
  assert (Hw : all_fin (window 20 24 close) = Some (rising 105 20))
    by (vm_compute; reflexivity).
  assert (Hvar : sample_var (rising 105 20) == 35) by (vm_compute; reflexivity).
  set (s := sqrt (Q2R (sample_var (rising 105 20)))).
  assert (Hsd : rolling_std_at 20 close 24 = RFin s).
  { unfold rolling_std_at. rewrite Hw. reflexivity. }
  assert (Hs : (0 < s)%R).
  { apply sqrt_lt_R0. rewrite (Qeq_eqR _ _ Hvar).
    unfold Q2R. simpl. lra. }
  eexists _, _, _, (rsi_of close), _, (2290 # 20), s.
  split; [exact H1|].
  split; [rewrite nth_error_rolling_mean by (rewrite Hlen; lia); rewrite Hma; reflexivity|].
  split; [reflexivity|].
  split; [exact H2|].
  split; [rewrite nth_error_rolling_std by (rewrite Hlen; lia); rewrite Hsd; reflexivity|].
  split; [exact Hs|].
  split; [exact H3|].
  split.
  { rewrite nth_error_zip_with, !nth_error_map.
    rewrite nth_error_rolling_mean, nth_error_rolling_std by (rewrite Hlen; lia).
    rewrite Hma, Hsd. simpl. f_equal. f_equal.
    rewrite (Qeq_eqR (2290 # 20) (229 # 2)) by reflexivity. ring. }
  split.
  { rewrite indicator_RSI, example25_closes. reflexivity. }
  split.
  { intros t [Ht1 Ht2].
    assert (E : rsi_of close =
      (repeat NaN 13 ++ repeat (Fin 100) 12)%list) by (vm_compute; reflexivity).
    rewrite E. rewrite nth_error_app2 by (rewrite repeat_length; lia).
    rewrite repeat_length, nth_error_repeat by lia. reflexivity. }
  split.
  { rewrite indicator_MACD, example25_closes. reflexivity. }
  split.
  { rewrite zip_with_length, !ewm_mean_length. reflexivity. }
  intros t Ht. apply fin_increasing_spec.
  - vm_compute. reflexivity.
  - rewrite zip_with_length, !ewm_mean_length. exact Ht.
Qed.

(** C2 (code_bug): for an empty history [fetch_stock_data] raises
    IndexError at [data.index[0]] of the business-day filter, although the
    indicator computation alone returns an empty frame for empty input. *)
Theorem fetch_empty_raises :
  fetch_stock_data [] = Err IndexError /\
  exists f, calc_columns (ohlcv_frame []) = Ok f /\ frame_len f = 0%nat.
Proof.
  split; [reflexivity|].
  eexists; split; [vm_compute; reflexivity | reflexivity].
Qed.

(** C10 (code_bug): a single Saturday row (1970-01-03) is filtered down to
    no row, and filtering that empty result again raises IndexError. *)
Theorem bday_filter_twice_saturday :
  bday_filter [mkrow 2 100] = Ok [] /\ bday_filter [] = Err IndexError.
Proof. split; reflexivity. Qed.

(** ** The business-day filter on sorted rows *)

Lemma sorted_dates_strongly (rows : list row) :
  sorted_dates rows = true ->
  StronglySorted (fun a b => (date a <= date b)%Z) rows.
Proof.
  intro H. apply Sorted_StronglySorted; [intros x y z; lia|].
  induction rows as [|r rs IH]; [constructor|].
  destruct rs as [|r2 rs]; [repeat constructor|].
  simpl in H. apply andb_true_iff in H as [H12 Hs].
  constructor; [apply IH, Hs|]. constructor. lia.
Qed.

Lemma strongly_sorted_filter {A} (R : A -> A -> Prop) (p : A -> bool) l :
  StronglySorted R l -> StronglySorted R (filter p l).
Proof.
  induction 1 as [|a l _ IH Ha]; simpl; [constructor|].
  destruct (p a); [|exact IH].
  constructor; [exact IH|].
  apply Forall_forall. intros x Hx. apply filter_In in Hx as [Hx _].
  rewrite Forall_forall in Ha. apply Ha, Hx.
Qed.

Lemma strongly_sorted_le_last (l : list row) (d : row) (x : row) :
  StronglySorted (fun a b => (date a <= date b)%Z) l -> In x l ->
  (date x <= date (last l d))%Z.
Proof.
  induction 1 as [|a l Hs IH Ha]; intro Hx; [destruct Hx|].
  destruct l as [|b l].
  - destruct Hx as [<- | []]. simpl. lia.
  - change (last (a :: b :: l) d) with (last (b :: l) d).
    destruct Hx as [<- | Hx]; [|apply IH, Hx].
    assert (Hin : In (last (b :: l) d) (b :: l)).
    { clear. revert b; induction l as [|c l IH]; intro b; [left; reflexivity|].
      right. apply IH. }
    rewrite Forall_forall in Ha. apply Ha, Hin.
Qed.

Lemma filter_all_true {A} (q : A -> bool) (l : list A) :
  (forall x, In x l -> q x = true) -> filter q l = l.
Proof.
  induction l as [|a l IH]; intro H; simpl; [reflexivity|].
  rewrite (H a (or_introl eq_refl)). f_equal.
  apply IH. intros x Hx. apply H. right. exact Hx.
Qed.

(** X3: filtering rows in date order a second time keeps them all, when
    the first pass kept a row *)
Lemma bday_filter_idem (rows kept : list row) :
  sorted_dates rows = true -> bday_filter rows = Ok kept -> kept <> [] ->
  bday_filter kept = Ok kept.
Proof.
  intros Hs Hf Hne.
  destruct rows as [|r rs]; [discriminate|].
  unfold bday_filter, index_first, index_last in Hf.
  remember (r :: rs) as l eqn:El.
  cbn [bind] in Hf. injection Hf as Hk.
  set (p := fun x => in_bdate_range (date r) (date (last l r)) (date x)) in *.
  assert (Hp : forall x, In x kept -> p x = true)
    by (intros x Hx; rewrite <- Hk in Hx; apply filter_In in Hx; apply Hx).
  assert (Hss : StronglySorted (fun a b => (date a <= date b)%Z) kept)
    by (rewrite <- Hk; apply strongly_sorted_filter, sorted_dates_strongly, Hs).
  destruct kept as [|k ks]; [contradiction|].
  unfold bday_filter, index_first, index_last. cbn [bind]. f_equal.
  apply filter_all_true. intros x Hx.
  specialize (Hp x Hx). unfold p, in_bdate_range in Hp |- *.
  apply andb_true_iff in Hp as [[Hw _]%andb_true_iff _].
  rewrite Hw, andb_true_l.
  apply andb_true_iff; split; apply Z.leb_le.
  - destruct Hx as [<- | Hx]; [lia|].
    inversion Hss as [|? ? _ Hall]; subst.
    rewrite Forall_forall in Hall. apply Hall, Hx.
  - apply strongly_sorted_le_last; assumption.
Qed.

(** ** Assigning a column *)

Lemma set_col_noop (k : string) (c : column) (f : frame) :
  has_col k c f -> set_col k c f = f.
Proof.
  intros [He Hall]. unfold set_col. rewrite He. clear He.
  induction Hall as [|[k' c'] f Hp _ IH]; simpl; [reflexivity|].
  f_equal; [|apply IH].
  destruct (String.eqb k' k) eqn:E; [|reflexivity].
  apply String.eqb_eq in E. subst k'. simpl in Hp. rewrite (Hp eq_refl); reflexivity.
Qed.

Lemma set_col_has (k : string) (c : column) (f : frame) :
  has_col k c (set_col k c f).
Proof.
  unfold set_col, has_col.
  destruct (existsb (fun p => String.eqb (fst p) k) f) eqn:E.
  - split.
    + induction f as [|[k' c'] f IH]; simpl in *; [discriminate|].
      destruct (String.eqb k' k) eqn:Ek; simpl.
      * rewrite String.eqb_refl. reflexivity.
      * rewrite Ek. apply IH, E.
    + apply Forall_map, Forall_forall. intros [k' c'] _. simpl.
      destruct (String.eqb k' k) eqn:Ek; simpl; [reflexivity|].
      intro H; subst k'. rewrite String.eqb_refl in Ek. discriminate.
  - split.
    + rewrite existsb_app. simpl. rewrite String.eqb_refl, orb_true_r. reflexivity.
    + apply Forall_app; split; [|repeat constructor].
      apply Forall_forall. intros [k' c'] Hin Hk. simpl in Hk. subst k'.
      exfalso.
      assert (Ht : existsb (fun p => String.eqb (fst p) k) f = true).
      { apply existsb_exists. exists (k, c'). split; [exact Hin|].
        apply String.eqb_refl. }
      congruence.
Qed.

Lemma set_col_keeps (k k' : string) (c c' : column) (f : frame) :
  String.eqb k k' = false -> has_col k' c' f -> has_col k' c' (set_col k c f).
Proof.
  intros Hk [He Hall]. unfold set_col, has_col.
  destruct (existsb (fun p => String.eqb (fst p) k) f).
  - split.
    + clear Hall. induction f as [|[k0 c0] f IH]; simpl in *; [discriminate|].
      destruct (String.eqb k0 k) eqn:E0; simpl.
      * apply String.eqb_eq in E0. subst k0. rewrite Hk in He |- *. apply IH, He.
      * destruct (String.eqb k0 k'); [reflexivity|]. apply IH, He.
    + apply Forall_map. eapply Forall_impl; [|exact Hall].
      intros [k0 c0] Hp. simpl in *.
      destruct (String.eqb k0 k); simpl; [|exact Hp].
      intro H; subst k'. rewrite String.eqb_refl in Hk. discriminate.
  - split.
    + rewrite existsb_app, He. reflexivity.
    + apply Forall_app; split; [exact Hall|].
      constructor; [|constructor]. simpl. intro H; subst k'.
      rewrite String.eqb_refl in Hk. discriminate.
Qed.

(** ** The heap *)

Lemma heap_store_same (h : heap) (r : ref) (f : frame) :
  nth_error h r = Some f -> heap_store h r f = h.
Proof.
  intro H. unfold heap_store.
  rewrite <- (firstn_skipn r h) at 3. f_equal.
  revert h H; induction r as [|r IH]; intros [|x h] H; simpl in *; try discriminate.
  - injection H as ->. reflexivity.
  - apply IH, H.
Qed.

Lemma heap_store_nth (h : heap) (r r2 : ref) (f : frame) :
  (r < List.length h)%nat ->
  nth_error (heap_store h r f) r2 = if Nat.eqb r2 r then Some f else nth_error h r2.
Proof.
  unfold heap_store.
  revert h r2; induction r as [|r IH]; intros [|x h] r2 Hr; simpl in *; try lia.
  - destruct r2; reflexivity.
  - destruct r2 as [|r2]; [reflexivity|]. simpl. apply IH. lia.
Qed.

Lemma calculate_eq (h : heap) (r : ref) (f : frame) (close : series) :
  nth_error h r = Some f -> lookup "Close" f = Some (QCol close) ->
  calculate_technical_indicators h r =
  Ok (heap_store h r (calc_result close f), r).
Proof.
  intros Hf Hc. unfold calculate_technical_indicators.
  rewrite Hf, (calc_columns_eq f close Hc). reflexivity.
Qed.

(** [calc_result] leaves every other column as it was *)
Lemma lookup_calc_result_other (close : series) (f : frame) (k : string) :
  ~ In k added_names -> lookup k (calc_result close f) = lookup k f.
Proof.
  intro Hk. unfold calc_result.
  repeat (rewrite lookup_set_col_other;
          [|apply String.eqb_neq; intro E; subst k; apply Hk; simpl; tauto]).
  reflexivity.
Qed.

Lemma calc_result_has (close : series) (f : frame) :
  Forall (fun k => exists c, lookup k (calc_result close f) = Some c) added_names.
Proof.
  unfold calc_result.
  repeat constructor; eexists; simpl_lookup; reflexivity.
Qed.

Lemma calc_result_idem (close : series) (f : frame) :
  calc_result close (calc_result close f) = calc_result close f.
Proof.
  set (F := calc_result close f).
  unfold calc_result at 1.
  repeat (rewrite set_col_noop;
          [| unfold F, calc_result;
             repeat (apply set_col_keeps; [reflexivity|]);
             apply set_col_has]).
  reflexivity.
Qed.

(** C5 (counterexample): calling [calculate_technical_indicators] on the
    caller's DataFrame object changes that object: it had no [RSI] column
    before the call and has one after. *)
Lemma calc_mutates_caller_frame :
  exists h1 f1,
    calculate_technical_indicators [ohlcv_frame (rows_of 4 flat15)] 0%nat = Ok (h1, 0%nat) /\
    nth_error h1 0%nat = Some f1 /\
    lookup "RSI" (ohlcv_frame (rows_of 4 flat15)) = None /\
    lookup "RSI" f1 <> None.
Proof.
  set (f := ohlcv_frame (rows_of 4 flat15)).
  exists (heap_store [f] 0%nat (calc_result (map Fin (map Close (rows_of 4 flat15))) f)).
  eexists. split.
  { apply calculate_eq; [reflexivity | apply ohlcv_close]. }
  split; [reflexivity|].
  split; [reflexivity|].
  unfold calc_result. simpl_lookup. discriminate.
Qed.

(** C5 (amended): [calculate_technical_indicators] reads nothing but the
    object it is given and returns that same object; it assigns the eight
    columns RSI, MACD, Signal_Line, MACD_Histogram, 20MA, 20STD, Upper_Band
    and Lower_Band into it in place, each computed from that object's
    [Close] column, leaves every other column of it (the OHLCV data among
    them) unchanged, and leaves every other object unchanged; any other
    object holding the same frame gives the same result. *)
Theorem calc_writes_only_indicator_columns
    (h : heap) (r : ref) (f : frame) (close : series) :
  nth_error h r = Some f -> lookup "Close" f = Some (QCol close) ->
  exists h1 f1,
    calculate_technical_indicators h r = Ok (h1, r) /\
    nth_error h1 r = Some f1 /\
    (forall r2, r2 <> r -> nth_error h1 r2 = nth_error h r2) /\
    (forall k, ~ In k added_names -> lookup k f1 = lookup k f) /\
    Forall (fun k => exists c, lookup k f1 = Some c) added_names /\
    (let macd := zip_with fsub (ewm_mean 12 close) (ewm_mean 26 close) in
     let signal := ewm_mean 9 macd in
     let ma := rolling_mean 20 close in
     let sd := rolling_std 20 close in
     lookup "RSI" f1 = Some (QCol (rsi_of close)) /\
     lookup "MACD" f1 = Some (QCol macd) /\
     lookup "Signal_Line" f1 = Some (QCol signal) /\
     lookup "MACD_Histogram" f1 = Some (QCol (zip_with fsub macd signal)) /\
     lookup "20MA" f1 = Some (QCol ma) /\
     lookup "20STD" f1 = Some (RCol sd) /\
     lookup "Upper_Band" f1 =
       Some (RCol (zip_with radd (map to_rnum ma) (map rmul2 sd))) /\
     lookup "Lower_Band" f1 =
       Some (RCol (zip_with rsub (map to_rnum ma) (map rmul2 sd)))) /\
    (forall h' r', nth_error h' r' = Some f ->
       exists h1', calculate_technical_indicators h' r' = Ok (h1', r') /\
                   nth_error h1' r' = Some f1).
Proof.
  intros Hf Hc.
  assert (Hr : (r < List.length h)%nat) by (apply nth_error_Some; congruence).
  exists (heap_store h r (calc_result close f)), (calc_result close f).
  split; [apply calculate_eq; assumption|].
  split; [rewrite heap_store_nth, Nat.eqb_refl by exact Hr; reflexivity|].
  split.
  { intros r2 Hne. rewrite heap_store_nth by exact Hr.
    destruct (Nat.eqb_spec r2 r); [contradiction | reflexivity]. }
  split; [intros k Hk; apply lookup_calc_result_other, Hk|].
  split; [apply calc_result_has|].
  split.
  { cbv zeta. unfold calc_result. repeat split; simpl_lookup; reflexivity. }
  intros h' r' Hf'.
  assert (Hr' : (r' < List.length h')%nat) by (apply nth_error_Some; congruence).
  exists (heap_store h' r' (calc_result close f)).
  split; [apply calculate_eq; assumption|].
  rewrite heap_store_nth, Nat.eqb_refl by exact Hr'. reflexivity.
Qed.

(** C5 (witness): the frame of fifteen equal closes, alone in the heap. *)
Lemma calc_writes_only_indicator_columns_witness :
  exists h1 f1,
    calculate_technical_indicators [ohlcv_frame (rows_of 4 flat15)] 0%nat = Ok (h1, 0%nat) /\
    nth_error h1 0%nat = Some f1 /\
    lookup "Close" f1 = lookup "Close" (ohlcv_frame (rows_of 4 flat15)) /\
    lookup "RSI" f1 = Some (QCol (rsi_of (map Fin (map Close (rows_of 4 flat15))))).
Proof.
  destruct (calc_writes_only_indicator_columns [ohlcv_frame (rows_of 4 flat15)] 0%nat
              (ohlcv_frame (rows_of 4 flat15)) (map Fin (map Close (rows_of 4 flat15))))
    as (h1 & f1 & H1 & H2 & _ & H4 & _ & H6 & _).
  - reflexivity.
  - apply ohlcv_close.
  - exists h1, f1. split; [exact H1|]. split; [exact H2|].
    split; [apply H4; simpl; intuition discriminate|].
    apply H6.
Defined.

(** C9: the result depends on nothing but the frame: two objects holding
    the same frame give the same frame; and a second call on the object a
    first call returned (holding its output) gives that output again. *)
Theorem calc_deterministic (h : heap) (r : ref) (f : frame) (close : series) :
  nth_error h r = Some f -> lookup "Close" f = Some (QCol close) ->
  exists h1 f1,
    calculate_technical_indicators h r = Ok (h1, r) /\
    nth_error h1 r = Some f1 /\
    (forall h' r', nth_error h' r' = Some f ->
       exists h1', calculate_technical_indicators h' r' = Ok (h1', r') /\
                   nth_error h1' r' = Some f1) /\
    calculate_technical_indicators h1 r = Ok (h1, r).
Proof.
  intros Hf Hc.
  assert (Hr : (r < List.length h)%nat) by (apply nth_error_Some; congruence).
  set (F := calc_result close f).
  assert (HF : nth_error (heap_store h r F) r = Some F)
    by (rewrite heap_store_nth, Nat.eqb_refl by exact Hr; reflexivity).
  exists (heap_store h r F), F.
  split; [apply calculate_eq; assumption|].
  split; [exact HF|].
  split.
  - intros h' r' Hf'.
    assert (Hr' : (r' < List.length h')%nat) by (apply nth_error_Some; congruence).
    exists (heap_store h' r' F). split; [apply calculate_eq; assumption|].
    rewrite heap_store_nth, Nat.eqb_refl by exact Hr'. reflexivity.
  - rewrite (calculate_eq _ _ F close HF).
    + unfold F. rewrite calc_result_idem. fold F.
      rewrite heap_store_same by exact HF. reflexivity.
    + unfold F. rewrite lookup_calc_result_other; [exact Hc|].
      simpl. intuition discriminate.
Qed.

(** C9 (witness): the frame of fifteen equal closes, alone in the heap. *)
Lemma calc_deterministic_witness :
  exists h1 f1,
    calculate_technical_indicators [ohlcv_frame (rows_of 4 flat15)] 0%nat = Ok (h1, 0%nat) /\
    nth_error h1 0%nat = Some f1 /\
    calculate_technical_indicators h1 0%nat = Ok (h1, 0%nat).
Proof.
  destruct (calc_deterministic [ohlcv_frame (rows_of 4 flat15)] 0%nat
              (ohlcv_frame (rows_of 4 flat15)) (map Fin (map Close (rows_of 4 flat15))))
    as (h1 & f1 & H1 & H2 & _ & H4).
  - reflexivity.
  - apply ohlcv_close.
  - exists h1, f1. repeat split; assumption.
Defined.

(** ** The moving-average traces *)

Lemma ma_traces_go_eq (data : frame) (close : series) (ws : list nat) :
  get_q "Close" data = Ok close ->
  ma_traces_go data ws =
  Ok (map (fun w => (ma_name w, rolling_mean w close))
          (filter (fun w => (w <=? frame_len data)%nat) ws)).
Proof.
  intro Hc. induction ws as [|w ws IH]; cbn [ma_traces_go filter map]; [reflexivity|].
  destruct (w <=? frame_len data)%nat; [|exact IH].
  rewrite Hc. cbn [bind]. rewrite IH. reflexivity.
Qed.




(** * Further properties of the code *)

(** ** Fetching *)

Lemma bday_filter_weekdays (rows : list row) :
  sorted_dates rows = true -> rows <> [] ->
  bday_filter rows = Ok (filter (fun r => (weekday (date r) <? 5)%Z) rows).
Proof.
  intros Hs Hne. destruct rows as [|r rs]; [contradiction|].
  unfold bday_filter, index_first, index_last. cbn [bind]. f_equal.
  apply filter_ext_in. intros x Hx. unfold in_bdate_range.
  assert (H1 : (date r <= date x)%Z).
  { destruct Hx as [<- | Hx]; [lia|].
    pose proof (sorted_dates_strongly _ Hs) as Hss.
    inversion Hss as [|? ? _ Hall]; subst.
    rewrite Forall_forall in Hall. apply Hall, Hx. }
  assert (H2 : (date x <= date (last (r :: rs) r))%Z)
    by (apply strongly_sorted_le_last; [apply sorted_dates_strongly, Hs | exact Hx]).
  apply Z.leb_le in H1. apply Z.leb_le in H2. rewrite H1, H2.
  destruct (weekday (date x) <? 5)%Z; reflexivity.
Qed.

(** X1: on rows in date order the range filter of [fetch_stock_data]
    keeps exactly the rows that fall on a weekday: the bounds
    [data.index[0]] and [data.index[-1]] drop nothing. *)
Theorem bday_filter_sorted (rows : list row) :
  sorted_dates rows = true -> rows <> [] ->
  bday_filter rows = Ok (filter (fun r => (weekday (date r) <? 5)%Z) rows).
Proof. exact (bday_filter_weekdays rows). Qed.

(** X1 (witness): a Monday-to-Sunday week of rows. *)
Lemma bday_filter_sorted_witness :
  bday_filter (rows_of 4 (rising 1 7)) =
  Ok (filter (fun r => (weekday (date r) <? 5)%Z) (rows_of 4 (rising 1 7))).
Proof.
  apply bday_filter_sorted; [vm_compute; reflexivity | vm_compute; discriminate].
Defined.

Lemma fetch_ok (r : row) (rs : list row) :
  exists kept, bday_filter (r :: rs) = Ok kept /\
    fetch_stock_data (r :: rs) =
    Ok (calc_result (map Fin (map Close kept)) (ohlcv_frame kept)).
Proof.
  assert (E : exists kept, bday_filter (r :: rs) = Ok kept) by (eexists; reflexivity).
  destruct E as [kept E]. exists kept. split; [exact E|].
  unfold fetch_stock_data. rewrite E. cbn [bind].
  apply calc_columns_eq, ohlcv_close.
Qed.

(** X2: [fetch_stock_data] raises for an empty history only, and then
    IndexError; on any other history it returns a frame (never KeyError). *)
Theorem fetch_stock_data_err (history : list row) (e : exn) :
  fetch_stock_data history = Err e <-> history = [] /\ e = IndexError.
Proof.
  destruct history as [|r rs].
  - split; [intro H; injection H as <-; split; reflexivity|].
    intros [_ ->]. reflexivity.
  - destruct (fetch_ok r rs) as [kept [_ ->]].
    split; [discriminate | intros [H _]; discriminate].
Qed.

(** X3 (witness): the weekday rows of a Monday-to-Sunday week. *)
Lemma bday_filter_idem_witness :
  bday_filter (filter (fun r => (weekday (date r) <? 5)%Z) (rows_of 4 (rising 1 7))) =
  Ok (filter (fun r => (weekday (date r) <? 5)%Z) (rows_of 4 (rising 1 7))).
Proof.
  apply (bday_filter_idem (rows_of 4 (rising 1 7))).
  - vm_compute. reflexivity.
  - vm_compute. reflexivity.
  - vm_compute. discriminate.
Defined.

(** ** The indicator computation *)



(** X5: every column the computation assigns has one value per value of
    [Close]. *)
Theorem calc_columns_aligned (data out : frame) (close : series) :
  lookup "Close" data = Some (QCol close) -> calc_columns data = Ok out ->
  Forall (fun k => exists c, lookup k out = Some c /\ col_len c = List.length close)
         added_names.
Proof.
  intros Hc Ho. rewrite (calc_columns_eq _ _ Hc) in Ho. injection Ho as <-.
  unfold calc_result.
  repeat constructor; eexists; (split; [simpl_lookup; reflexivity|]); simpl;
    repeat progress rewrite ?zip_with_length, ?ewm_mean_length, ?length_map,
      ?rolling_mean_length, ?rolling_std_length, ?rsi_of_length; lia.
Qed.

(** X5 (witness): the frame of fifteen equal closes. *)
Lemma calc_columns_aligned_witness :
  exists out, calc_columns (ohlcv_frame (rows_of 4 flat15)) = Ok out /\
  Forall (fun k => exists c, lookup k out = Some c /\ col_len c = 15%nat) added_names.
Proof.
  eexists. split; [vm_compute; reflexivity|].
  apply (calc_columns_aligned (ohlcv_frame (rows_of 4 flat15)) _
           (map Fin (map Close (rows_of 4 flat15)))).
  - apply ohlcv_close.
  - vm_compute. reflexivity.
Defined.

(** ** RSI range *)

Lemma rsi_cell_range (g l : Q) :
  0 <= g -> 0 <= l ->
  rsi_cell (fdiv (Fin g) (Fin l)) = NaN \/
  exists q, rsi_cell (fdiv (Fin g) (Fin l)) = Fin q /\ 0 <= q <= 100.
Proof.
  intros Hg Hl.
  destruct (Qeq_bool l 0) eqn:El.
  - apply Qeq_bool_iff in El.
    destruct (Qeq_dec g 0) as [Hz | Hz].
    + left. apply (rsi_cell_cases g l Hg Hl). split; assumption.
    + right. exists 100. split; [apply (rsi_cell_cases g l Hg Hl); assumption|].
      split; Lqa.lra.
  - assert (Hx : 0 <= g / l)
      by (apply Qmult_le_0_compat; [exact Hg | apply Qinv_le_0_compat, Hl]).
    assert (Hne : Qeq_bool (1 + g / l) 0 = false).
    { destruct (Qeq_bool (1 + g / l) 0) eqn:E; [|reflexivity].
      apply Qeq_bool_iff in E. Lqa.lra. }
    unfold rsi_cell, fdiv. rewrite El. cbn [fadd fneg]. rewrite Hne. cbn [fadd fneg].
    right. eexists. split; [reflexivity|].
    assert (H0 : 0 <= 100 / (1 + g / l)) by (apply Qle_shift_div_l; Lqa.lra).
    assert (H1 : 100 / (1 + g / l) <= 100) by (apply Qle_shift_div_r; Lqa.lra).
    split; Lqa.lra.
Qed.

(** X6: every RSI value is NaN or a number between 0 and 100; the RSI is
    never infinite. *)
Theorem rsi_bounded (rows : list row) :
  exists rsi, indicator rows "RSI" = Some (QCol rsi) /\
  Forall (fun x => x = NaN \/ exists q, x = Fin q /\ 0 <= q <= 100) rsi.
Proof.
  eexists. split; [apply indicator_RSI|].
  apply Forall_forall. intros x Hx.
  destruct (In_nth_error _ _ Hx) as [t Ht].
  assert (Hlt : (t < List.length (map Close rows))%nat).
  { assert (H : nth_error (rsi_of (map Fin (map Close rows))) t <> None) by congruence.
    apply nth_error_Some in H. rewrite rsi_of_length, length_map in H. exact H. }
  destruct (Nat.lt_ge_cases t 13) as [H13 | H13].
  - rewrite rsi_early in Ht by (first [exact H13 | rewrite length_map; exact Hlt]).
    injection Ht as <-. left; reflexivity.
  - destruct (rsi_index (map Close rows) t H13 Hlt)
      as [g [l [_ [_ [Hg [Hl Hr]]]]]].
    rewrite Hr in Ht. injection Ht as <-. apply rsi_cell_range; assumption.
Qed.

(** ** MACD of constant closes *)

Lemma ema_go_const (a p c : Q) (xs : list Q) :
  p == c -> Forall (fun q => q == c) xs -> Forall (fun q => q == c) (ema_go a p xs).
Proof.
  revert p; induction xs as [|x xs IH]; intros p Hp Hx; simpl; [constructor|].
  inversion Hx as [|? ? Hx0 Hxs]; subst.
  assert (Hy : (1 - a) * p + a * x == c) by (rewrite Hp, Hx0; ring).
  constructor; [exact Hy | apply IH; assumption].
Qed.

Lemma ewm_mean_const (span : Z) (c : Q) (qs : list Q) :
  Forall (fun q => q == c) qs ->
  exists ys, ewm_mean span (map Fin qs) = map Fin ys /\ Forall (fun q => q == c) ys.
Proof.
  intro H. destruct qs as [|q qs]; [exists []; split; [reflexivity | constructor]|].
  inversion H as [|? ? Hq Hqs]; subst.
  exists (q :: ema_go (alpha span) q qs). split; [apply ewm_mean_fin|].
  constructor; [exact Hq | apply ema_go_const; assumption].
Qed.

Lemma zip_fsub_const (c : Q) (xs ys : list Q) :
  Forall (fun q => q == c) xs -> Forall (fun q => q == c) ys ->
  exists zs, zip_with fsub (map Fin xs) (map Fin ys) = map Fin zs /\
             Forall (fun q => q == 0) zs.
Proof.
  revert ys; induction xs as [|x xs IH]; intros [|y ys] Hx Hy; simpl;
    try (exists []; split; [reflexivity | constructor]).
  inversion Hx as [|? ? Hx0 Hxs]; inversion Hy as [|? ? Hy0 Hys]; subst.
  destruct (IH ys Hxs Hys) as [zs [Hz Hzs]].
  exists (x + - y :: zs). split; [rewrite Hz; reflexivity|].
  constructor; [|exact Hzs]. rewrite Hx0, Hy0. ring.
Qed.

Lemma forall_fin_eq (c : Q) (zs : list Q) :
  Forall (fun q => q == c) zs ->
  Forall (fun x => exists q, x = Fin q /\ q == c) (map Fin zs).
Proof.
  intro H. apply Forall_map. eapply Forall_impl; [|exact H].
  intros q Hq. exists q. split; [reflexivity | exact Hq].
Qed.

(** X7: when every close is the same, MACD, Signal_Line and
    MACD_Histogram are 0 at every index. *)
Theorem macd_flat_zero (rows : list row) (c : Q) :
  Forall (fun r => Close r = c) rows ->
  exists macd signal hist,
    indicator rows "MACD" = Some (QCol macd) /\
    indicator rows "Signal_Line" = Some (QCol signal) /\
    indicator rows "MACD_Histogram" = Some (QCol hist) /\
    Forall (fun x => exists q, x = Fin q /\ q == 0) macd /\
    Forall (fun x => exists q, x = Fin q /\ q == 0) signal /\
    Forall (fun x => exists q, x = Fin q /\ q == 0) hist.
Proof.
  intro Hc.
  assert (Hq : Forall (fun q => q == c) (map Close rows)).
  { rewrite (closes_const rows c Hc). apply Forall_forall.
    intros q Hin. apply repeat_spec in Hin. rewrite Hin. reflexivity. }
  destruct (ewm_mean_const 12 c _ Hq) as [e1 [He1 Hq1]].
  destruct (ewm_mean_const 26 c _ Hq) as [e2 [He2 Hq2]].
  destruct (zip_fsub_const c e1 e2 Hq1 Hq2) as [ms [Hm Hms]].
  destruct (ewm_mean_const 9 0 ms Hms) as [ss [Hs Hss]].
  destruct (zip_fsub_const 0 ms ss Hms Hss) as [hs [Hh Hhs]].
  exists (map Fin ms), (map Fin ss), (map Fin hs).
  split; [rewrite indicator_MACD, He1, He2, Hm; reflexivity|].
  split; [rewrite indicator_Signal, He1, He2, Hm, Hs; reflexivity|].
  split; [rewrite indicator_Hist; cbv zeta; rewrite He1, He2, Hm, Hs, Hh; reflexivity|].
  split; [apply forall_fin_eq, Hms|].
  split; [apply forall_fin_eq, Hss | apply forall_fin_eq, Hhs].
Qed.

(** X7 (witness): the fifteen equal closes of 50. *)
Lemma macd_flat_zero_witness :
  exists macd, indicator (rows_of 4 flat15) "MACD" = Some (QCol macd) /\
  Forall (fun x => exists q, x = Fin q /\ q == 0) macd.
Proof.
  destruct (macd_flat_zero (rows_of 4 flat15) 50) as (m & _ & _ & H1 & _ & _ & H4 & _);
    [repeat constructor|].
  exists m. split; assumption.
Defined.

(** ** EMA range *)

Lemma alpha_range (span : Z) : (1 <= span)%Z -> 0 < alpha span <= 1.
Proof.
  intro H. rewrite Zle_Qle in H.
  assert (H1 : 1 <= inject_Z span) by exact H. clear H. unfold alpha.
  split; [apply Qlt_shift_div_l | apply Qle_shift_div_r]; Lqa.lra.
Qed.

Lemma ema_go_bounded (a p lo hi : Q) (xs : list Q) :
  0 <= a <= 1 -> lo <= p <= hi -> Forall (fun q => lo <= q <= hi) xs ->
  Forall (fun q => lo <= q <= hi) (ema_go a p xs).
Proof.
  intros Ha. revert p; induction xs as [|x xs IH]; intros p Hp Hx; simpl; [constructor|].
  inversion Hx as [|? ? Hx0 Hxs]; subst.
  assert (Hy : lo <= (1 - a) * p + a * x <= hi) by (split; Lqa.nra).
  constructor; [exact Hy | apply IH; assumption].
Qed.

(** X8: an exponential moving average [ewm(span=span, adjust=False)] with
    [span >= 1] (the code uses 12, 26 and 9) of finite values that all lie
    in [[lo, hi]] is finite and lies in [[lo, hi]] at every index. *)
Theorem ewm_mean_bounded (span : Z) (lo hi : Q) (qs : list Q) :
  (1 <= span)%Z -> Forall (fun q => lo <= q <= hi) qs ->
  exists ys, ewm_mean span (map Fin qs) = map Fin ys /\
             List.length ys = List.length qs /\
             Forall (fun q => lo <= q <= hi) ys.
Proof.
  intros Hs H. destruct qs as [|q qs]; [exists []; repeat split; constructor|].
  inversion H as [|? ? Hq Hqs]; subst.
  exists (q :: ema_go (alpha span) q qs).
  split; [apply ewm_mean_fin|].
  split; [simpl; rewrite ema_go_length; reflexivity|].
  constructor; [exact Hq|].
  apply ema_go_bounded; [|exact Hq | exact Hqs].
  destruct (alpha_range span Hs). split; Lqa.lra.
Qed.

(** X8 (witness): span 12 over the closes 3, 1, 4, 1, 5, all in [[1, 5]]. *)
Lemma ewm_mean_bounded_witness :
  exists ys, ewm_mean 12 (map Fin [3; 1; 4; 1; 5]) = map Fin ys /\
             List.length ys = 5%nat /\ Forall (fun q => 1 <= q <= 5) ys.
Proof.
  apply (ewm_mean_bounded 12 1 5 [3; 1; 4; 1; 5]).
  - lia.
  - repeat constructor; Lqa.lra.
Defined.

(** ** Bollinger bands where they are defined *)

Lemma fold_fadd_fin (l : series) (acc : Q) :
  Forall is_fin l -> exists s, fold_left fadd l (Fin acc) = Fin s.
Proof.
  revert acc; induction l as [|x l IH]; intros acc Hl; simpl; [eexists; reflexivity|].
  inversion Hl as [|? ? [a ->] Hl']; subst. simpl. apply IH, Hl'.
Qed.

Lemma forall_fin_no_nan (l : series) : Forall is_fin l -> existsb is_nan l = false.
Proof. induction 1 as [|x l [a ->] _ IH]; simpl; auto. Qed.

Lemma rolling_mean_fin (w : nat) (qs : list Q) (t : nat) :
  (0 < w)%nat -> (w <= t + 1)%nat ->
  exists m, rolling_mean_at w (map Fin qs) t = Fin m.
Proof.
  intros Hw Ht. unfold rolling_mean_at.
  destruct (Nat.ltb_spec (t + 1) w); [lia|].
  assert (Hf : Forall is_fin (window w t (map Fin qs)))
    by (apply Forall_window, forall_fin_of_map).
  rewrite forall_fin_no_nan by exact Hf.
  destruct (fold_fadd_fin _ 0 Hf) as [s Hs]. unfold fsum. rewrite Hs.
  assert (Hz : Qeq_bool (inject_Z (Z.of_nat w)) 0 = false).
  { destruct (Qeq_bool _ 0) eqn:E; [|reflexivity].
    apply Qeq_bool_iff in E. unfold Qeq in E. simpl in E. lia. }
  cbn [fdiv]. rewrite Hz. eexists; reflexivity.
Qed.

Lemma all_fin_map (qs : list Q) : all_fin (map Fin qs) = Some qs.
Proof. induction qs as [|q qs IH]; simpl; [reflexivity|]. rewrite IH. reflexivity. Qed.

Lemma rolling_std_fin (w : nat) (qs : list Q) (t : nat) :
  (w <= t + 1)%nat ->
  exists s, rolling_std_at w (map Fin qs) t = RFin s /\ (0 <= s)%R.
Proof.
  intro Ht. unfold rolling_std_at.
  destruct (Nat.ltb_spec (t + 1) w); [lia|].
  unfold window. rewrite skipn_map, firstn_map, all_fin_map.
  eexists; split; [reflexivity | apply sqrt_pos].
Qed.

(** X9: the two bands are NaN at the first 19 indices; from index 19 on
    both are finite, the lower band is at most the 20-period mean and the
    upper band at least, each at twice the standard deviation from it. *)
Theorem bands_order (rows : list row) :
  exists ma sd up lo,
    indicator rows "20MA" = Some (QCol ma) /\
    indicator rows "20STD" = Some (RCol sd) /\
    indicator rows "Upper_Band" = Some (RCol up) /\
    indicator rows "Lower_Band" = Some (RCol lo) /\
    forall t, (t < List.length rows)%nat ->
      ((t < 19)%nat /\ nth_error up t = Some RNaN /\ nth_error lo t = Some RNaN) \/
      ((19 <= t)%nat /\ exists m s u l,
         nth_error ma t = Some (Fin m) /\ nth_error sd t = Some (RFin s) /\
         nth_error up t = Some (RFin u) /\ nth_error lo t = Some (RFin l) /\
         (l <= Q2R m <= u)%R /\ (u - Q2R m = 2 * s)%R /\ (Q2R m - l = 2 * s)%R).
Proof.
  destruct (indicator_bands rows) as (H1 & H2 & H3 & H4).
  do 4 eexists. split; [exact H1|]. split; [exact H2|]. split; [exact H3|].
  split; [exact H4|].
  intros t Ht.
  assert (Hl : (t < List.length (map Fin (map Close rows)))%nat)
    by (rewrite !length_map; exact Ht).
  rewrite !nth_error_zip_with, !nth_error_map.
  rewrite nth_error_rolling_mean, nth_error_rolling_std by exact Hl.
  destruct (Nat.lt_ge_cases t 19) as [H19 | H19].
  - left. rewrite rolling_mean_early by lia.
    split; [exact H19 | split; reflexivity].
  - right. split; [exact H19|].
    destruct (rolling_mean_fin 20 (map Close rows) t) as [m Hm]; [lia | lia |].
    destruct (rolling_std_fin 20 (map Close rows) t) as [s [Hs Hs0]]; [lia|].
    rewrite Hm, Hs.
    exists m, s, (Q2R m + s * 2)%R, (Q2R m + - (s * 2))%R.
    repeat split; try reflexivity; lra.
Qed.

(** ** The moving-average traces, over the frame [fetch_stock_data] builds *)

Lemma set_col_head (k k0 : string) (c c0 : column) (f : frame) :
  String.eqb k0 k = false ->
  exists g, set_col k c ((k0, c0) :: f) = (k0, c0) :: g.
Proof.
  intro H. unfold set_col. simpl. rewrite H. simpl.
  destruct (existsb (fun p => String.eqb (fst p) k) f); eexists; reflexivity.
Qed.

(** [len(data)] of the computed frame is the number of rows *)
Lemma frame_len_calc_result (close : series) (rows : list row) :
  frame_len (calc_result close (ohlcv_frame rows)) = List.length rows.
Proof.
  set (c0 := QCol (map (fun r => Fin (Open r)) rows)).
  unfold calc_result, ohlcv_frame. fold c0. cbv zeta.
  repeat match goal with
  | |- context [set_col ?k ?c (("Open", c0) :: ?f)] =>
      let g := fresh "g" in let E := fresh "E" in
      destruct (set_col_head k "Open" c c0 f eq_refl) as [g E]; rewrite E; clear E
  end.
  unfold frame_len, c0, col_len. apply length_map.
Qed.

Lemma get_q_close_calc (rows : list row) :
  get_q "Close" (calc_result (map Fin (map Close rows)) (ohlcv_frame rows)) =
  Ok (map Fin (map Close rows)).
Proof.
  unfold get_q. rewrite lookup_calc_result_other by (simpl; intuition discriminate).
  rewrite ohlcv_close. reflexivity.
Qed.

(** X10: each moving-average trace of [plot_stock_data] is named after
    its window [w] (50 or 252), present only when the frame has at least
    [w] rows, and holds the [w]-row rolling mean of [Close]; it has one
    value per row, NaN before row [w - 1] and finite from there on. *)
Theorem ma_traces_warmup (rows : list row) :
  exists data traces,
    calc_columns (ohlcv_frame rows) = Ok data /\
    ma_traces data = Ok traces /\
    Forall (fun tr => exists w, (w = 50 \/ w = 252)%nat /\
       (w <= List.length rows)%nat /\
       fst tr = ma_name w /\
       snd tr = rolling_mean w (map Fin (map Close rows)) /\
       List.length (snd tr) = List.length rows /\
       forall t, (t < List.length rows)%nat ->
         ((t + 1 < w)%nat /\ nth_error (snd tr) t = Some NaN) \/
         ((w <= t + 1)%nat /\ exists m, nth_error (snd tr) t = Some (Fin m))) traces.
Proof.
  set (close := map Fin (map Close rows)).
  set (data := calc_result close (ohlcv_frame rows)).
  exists data, (map (fun w => (ma_name w, rolling_mean w close))
                    (filter (fun w => (w <=? frame_len data)%nat) [50%nat; 252%nat])).
  split; [apply calc_columns_eq, ohlcv_close|].
  split; [apply ma_traces_go_eq, get_q_close_calc|].
  assert (Hlen : List.length close = List.length rows)
    by (unfold close; rewrite !length_map; reflexivity).
  apply Forall_map, Forall_forall. intros w Hw. apply filter_In in Hw as [Hw Hle].
  unfold data in Hle. rewrite frame_len_calc_result in Hle. apply Nat.leb_le in Hle.
  assert (Hw0 : (0 < w)%nat) by (destruct Hw as [<- | [<- | []]]; lia).
  exists w. cbn [fst snd].
  split; [destruct Hw as [<- | [<- | []]]; auto|].
  split; [exact Hle|]. split; [reflexivity|]. split; [reflexivity|].
  split; [rewrite rolling_mean_length; exact Hlen|].
  intros t Ht. rewrite nth_error_rolling_mean by lia.
  destruct (Nat.lt_ge_cases (t + 1) w) as [Hlt | Hge].
  - left. split; [exact Hlt|]. rewrite rolling_mean_early by exact Hlt. reflexivity.
  - right. split; [exact Hge|].
    destruct (rolling_mean_fin w (map Close rows) t Hw0 Hge) as [m Hm].
    exists m. unfold close. rewrite Hm. reflexivity.
Qed.

(** ** One round of the main loop *)

(** X11: a round of the main loop reports an error exactly when the data
    source returned no rows, and the error is then IndexError; otherwise it
    either reports that there is no data or plots. *)
Theorem main_fetch_error (history : list row) (e : exn) :
  main_fetch history = FetchError e <-> history = [] /\ e = IndexError.
Proof.
  destruct history as [|r rs].
  - split; [intro H; injection H as <-; split; reflexivity|].
    intros [_ ->]. reflexivity.
  - destruct (fetch_ok r rs) as [kept [_ Hf]].
    unfold main_fetch. rewrite Hf.
    destruct (frame_len _ =? 0)%nat; [split; [discriminate | intros [H _]; discriminate]|].
    unfold plot_trace_names, ma_traces.
    rewrite (ma_traces_go_eq _ _ _ (get_q_close_calc kept)).
    cbn [bind]. split; [discriminate | intros [H _]; discriminate].
Qed.

(** X12: for a non-empty history in date order, a round of the main loop
    reports "No data found" exactly when every row falls on a Saturday or
    Sunday; otherwise it plots the frame of the weekday rows. *)
Theorem main_fetch_no_data (history : list row) :
  sorted_dates history = true -> history <> [] ->
  (main_fetch history = NoData <->
   Forall (fun r => (5 <= weekday (date r))%Z) history) /\
  (forall data names, main_fetch history = Plotted data names ->
   frame_len data = List.length (filter (fun r => (weekday (date r) <? 5)%Z) history)).
Proof.
  intros Hs Hne.
  unfold main_fetch, fetch_stock_data. rewrite (bday_filter_weekdays _ Hs Hne). cbn [bind].
  remember (filter (fun r => (weekday (date r) <? 5)%Z) history) as kept eqn:Ek.
  rewrite (calc_columns_eq _ _ (ohlcv_close kept)), frame_len_calc_result.
  assert (Hk : kept = [] <-> Forall (fun r => (5 <= weekday (date r))%Z) history).
  { rewrite Ek. split.
    - intro H. apply Forall_forall. intros x Hx.
      destruct (Z.ltb_spec (weekday (date x)) 5) as [Hl | Hl]; [|exact Hl].
      exfalso.
      assert (Hin : In x (filter (fun r => (weekday (date r) <? 5)%Z) history))
        by (apply filter_In; split; [exact Hx | apply Z.ltb_lt, Hl]).
      rewrite H in Hin. destruct Hin.
    - intro H. clear Ek Hs Hne. induction H as [|x l Hx _ IH]; simpl; [reflexivity|].
      destruct (Z.ltb_spec (weekday (date x)) 5); [lia | exact IH]. }
  rewrite <- Hk.
  destruct kept as [|k ks]; cbn [List.length Nat.eqb].
  - split; [split; reflexivity | intros data names H; discriminate].
  - unfold plot_trace_names, ma_traces.
    rewrite (ma_traces_go_eq _ _ _ (get_q_close_calc _)). cbn [bind].
    split; [split; [discriminate | intro H; discriminate]|].
    intros data names H. injection H as <- _.
    apply frame_len_calc_result.
Qed.

(** X12 (witness): a Saturday and a Sunday. *)
Lemma main_fetch_no_data_witness : main_fetch (rows_of 2 [1; 2]) = NoData.
Proof.
  apply (proj2 (proj1 (main_fetch_no_data (rows_of 2 [1; 2]) eq_refl
                         ltac:(vm_compute; discriminate)))).
  repeat constructor; vm_compute; discriminate.
Defined.
